(** * SPV verifier of electrum-nmc: [electrum/verifier.py]

    A shallow embedding of the Simple Payment Verification job
    ([class SPV], [is_chunk_cheaper], [verify_tx_is_in_block]) and the
    properties its specification states about it.

    Python values are modelled as follows.
    - [int] is [Z] (unbounded in both), [//] by a positive divisor is [Z.div].
    - [str] is [string]; transaction ids and hex digests are strings.
    - a [dict] used as a map is a [gmap], a [set] is a [gset]; a dict
      that is iterated ([unverified.items()]) is the list of its items in
      iteration order, with distinct keys.
    - an exception is a value of [exn]; a function that may raise returns
      a sum.
    - the one floating-point computation, [ceil(log(x, 2))], is a
      parameter of the model: its int result is taken as the platform
      delivers it.
    - object identity of [Blockchain] objects is the field [chain_id]. *)

From Stdlib Require Import ZArith Lia.
From stdpp Require Import base decidable option list gmap strings pretty fin_maps fin_sets.

#[local] Open Scope Z_scope.
#[local] Set Warnings "-clear-no-such-hyp".

(** ** Python values met in block headers *)

Inductive pyval : Type :=
  | PyStr (s : string)
  | PyInt (z : Z).

#[global] Instance pyval_eq_dec : EqDecision pyval.
Proof. solve_decision. Defined.

(** A deserialised block header: a [dict] from field names to values.
    The verifier reads the keys ['merkle_root'] and ['timestamp']. *)
Abbreviation header := (gmap string pyval).

(** Python truthiness of an [Optional[dict]]: [None] and the empty dict
    are both falsy, which is what [if not block_header] tests. *)
Definition truthy (block_header : option header) : bool :=
  match block_header with
  | None => false
  | Some d => bool_decide (d ≠ ∅)
  end.

(** ** Exceptions *)

(** [MerkleVerificationFailure] and its subclasses.  [MissingBlockHeader]
    is defined in verifier.py; [MerkleRootMismatch] and the base class come
    from [.merkle].  The base class is raised directly, with the message
    "merkle branch too long", for an over-long branch (the specification
    calls this case BranchTooLong); [MalformedProof] stands for the
    instances of the base class that [hash_merkle_root] raises itself. *)
Inductive MerkleVerificationFailure : Type :=
  | MissingBlockHeader (tx_hash : string) (block_height : Z)
  | BranchTooLong (len : nat)
  | MerkleRootMismatch (tx_hash : string) (expected : option pyval) (calc : string)
  | MalformedProof.

Inductive exn : Type :=
  | UntrustedServerReturnedError (original_is_RPCError : bool)
  | NoCleanInterface
  | TransportError
  | MerkleFailure (e : MerkleVerificationFailure)
  | GracefulDisconnect (e : MerkleVerificationFailure)
  | AttributeError.

(** ** 4.2 Bandwidth cost model: [is_chunk_cheaper] *)

Section CostModel.

(** [ceil(log(x, 2))] for an int [x >= 1]: the int that Python's
    [math.ceil] returns for the double-precision quotient
    [log(x) / log(2)].  It is taken as it comes from the platform and is
    not assumed to be the exact ceiling of the real logarithm (CPython
    gives 30 at [x = 2**29]); it is never negative, since the logarithm of
    a number that is at least 1 is at least 0.0, hence the type [N].  For
    [x <= 0] Python raises [ValueError]: the statements about the cost
    model assume [0 <= max_checkpoint], and the dispatcher calls it only
    under [0 < tx_height < max_checkpoint]. *)
Variable ceil_log2 : Z → N.

Definition branch_len (max_checkpoint : Z) : Z :=
  32 * Z.of_N (ceil_log2 (max_checkpoint + 1)).

Definition root_len : Z := 32.
Definition bare_header_len : Z := 80.

Definition chunk_len (max_checkpoint : Z) : Z :=
  2016 * bare_header_len + branch_len max_checkpoint + root_len.

Definition individual_headers_len (max_checkpoint headers_in_chunk_period : Z) : Z :=
  headers_in_chunk_period * (branch_len max_checkpoint + root_len + bare_header_len).

Definition is_chunk_cheaper (max_checkpoint headers_in_chunk_period : Z) : bool :=
  chunk_len max_checkpoint <? individual_headers_len max_checkpoint headers_in_chunk_period.

End CostModel.

(** ** 4.1 Merkle proof verifier: [verify_tx_is_in_block] *)

(** [block_header.get(key)] on an [Optional[dict]] that is known not to be
    [None]; a missing key gives [None]. *)
Definition dict_get (block_header : option header) (key : string) : option pyval :=
  block_header ≫= (λ d, d !! key).

Section Verifier.

(** [hash_merkle_root] lives in [.merkle], outside this file: it
    recomputes the root from the branch, or raises a
    [MerkleVerificationFailure] on a malformed proof. *)
Variable hash_merkle_root :
  list string → string → Z → MerkleVerificationFailure + string.

Definition verify_tx_is_in_block (tx_hash : string) (merkle_branch : list string)
    (leaf_pos_in_tree : Z) (block_header : option header) (block_height : Z)
    : MerkleVerificationFailure + unit :=
  if negb (truthy block_header)
  then inl (MissingBlockHeader tx_hash block_height)
  else if bool_decide (30 < length merkle_branch)%nat
  then inl (BranchTooLong (length merkle_branch))
  else match hash_merkle_root merkle_branch tx_hash leaf_pos_in_tree with
       | inl e => inl e
       | inr calc_merkle_root =>
           if bool_decide (dict_get block_header "merkle_root" ≠ Some (PyStr calc_merkle_root))
           then inl (MerkleRootMismatch tx_hash (dict_get block_header "merkle_root")
                                        calc_merkle_root)
           else inr tt
       end.

End Verifier.

(** ** Collaborators *)

(** A [Blockchain] object as the verifier uses it: [height()],
    [read_header(height)], and its identity, which is what [!=] on two
    chain objects compares. *)
Record Blockchain : Type := {
  chain_id : N;
  chain_height : Z;
  read_header : Z → option header;
}.

(** [TxMinedInfo] as built on the success path. *)
Record TxMinedInfo : Type := {
  height : Z;
  timestamp : option pyval;
  txpos : Z;
  header_hash : string;
}.

(** Modelled from the spec: the wallet ([AddressSynchronizer]) is not part
    of this file.  Section 6 of the specification gives the interface this
    job consumes: [getUnverifiedTransactions() -> mapping(txId -> height)],
    [addVerifiedTransaction], [removeUnverifiedTransaction] and
    [undoVerificationsAbove].  The wallet is the pair of its unverified
    mapping and its verified mapping. *)
Record Wallet : Type := {
  unverified_tx : gmap string Z;
  verified_tx : gmap string TxMinedInfo;
}.

(** Modelled from the spec: [getUnverifiedTransactions], the items of the
    unverified mapping. *)
Definition get_unverified_txs (w : Wallet) : list (string * Z) :=
  map_to_list (unverified_tx w).

(** Modelled from the spec: [removeUnverifiedTransaction(txId, height)]
    takes the transaction out of the unverified set. *)
Definition remove_unverified_tx (w : Wallet) (tx_hash : string) (tx_height : Z) : Wallet :=
  {| unverified_tx := delete tx_hash (unverified_tx w);
     verified_tx := verified_tx w |}.

(** Modelled from the spec: [addVerifiedTransaction(txId, VerifiedTxInfo)]
    commits the record and discards the transaction from the unverified
    set. *)
Definition add_verified_tx (w : Wallet) (tx_hash : string) (info : TxMinedInfo) : Wallet :=
  {| unverified_tx := delete tx_hash (unverified_tx w);
     verified_tx := <[tx_hash := info]> (verified_tx w) |}.

(** Modelled from the spec: [undoVerificationsAbove(chainTip, height)]
    undoes the verification state of all transactions verified above
    [height], which re-enter the unverified pool at their old height, and
    returns their ids. *)
Definition undo_verifications (w : Wallet) (chain : Blockchain) (above_height : Z)
    : Wallet * list string :=
  let undone := filter (λ kv, above_height < height kv.2) (verified_tx w) in
  ({| unverified_tx := (height <$> undone) ∪ unverified_tx w;
      verified_tx := filter (λ kv, ¬ above_height < height kv.2) (verified_tx w) |},
   (map_to_list undone).*1).

(** ** The proof state store and the job object *)

Record SPV : Type := {
  wallet : option Wallet;
  blockchain : Blockchain;
  merkle_roots : gmap string (option pyval);
  requested_merkle : gset string;
}.

(** [_reset]: both structures start empty. *)
Definition _reset (w : option Wallet) (chain : Blockchain) : SPV :=
  {| wallet := w; blockchain := chain; merkle_roots := ∅; requested_merkle := ∅ |}.

Definition set_requested_merkle (self : SPV) (r : gset string) : SPV :=
  {| wallet := wallet self; blockchain := blockchain self;
     merkle_roots := merkle_roots self; requested_merkle := r |}.

Definition set_merkle_roots (self : SPV) (m : gmap string (option pyval)) : SPV :=
  {| wallet := wallet self; blockchain := blockchain self;
     merkle_roots := m; requested_merkle := requested_merkle self |}.

Definition set_wallet (self : SPV) (w : option Wallet) : SPV :=
  {| wallet := w; blockchain := blockchain self;
     merkle_roots := merkle_roots self; requested_merkle := requested_merkle self |}.

Definition set_blockchain (self : SPV) (chain : Blockchain) : SPV :=
  {| wallet := wallet self; blockchain := chain;
     merkle_roots := merkle_roots self; requested_merkle := requested_merkle self |}.

(** [remove_spv_proof_for_tx]: [dict.pop(key, None)] and [set.discard]
    accept a key that is not there. *)
Definition remove_spv_proof_for_tx (self : SPV) (tx_hash : string) : SPV :=
  set_requested_merkle
    (set_merkle_roots self (delete tx_hash (merkle_roots self)))
    (requested_merkle self ∖ {[tx_hash]}).

Definition is_up_to_date (self : SPV) : bool :=
  bool_decide (requested_merkle self = ∅).

(** ** 4.3 Request dispatcher: [_request_proofs] *)

(** What the dispatcher hands to the task group, in spawn order.
    [await self.taskgroup.spawn(...)] only registers the task, so one run
    of the dispatcher is a single uninterrupted pass over the dict; the
    spawned tasks run later and are modelled on their own. *)
Inductive task : Type :=
  | request_chunk (tx_height : Z) (can_return_early : bool)
  | request_and_verify_single_proof (tx_hash : string) (tx_height : Z)
      (use_individual_header_proof : bool).

#[global] Instance task_eq_dec : EqDecision task.
Proof. solve_decision. Defined.

Section Dispatcher.

(** [ceil(log(x, 2))] as the platform computes it, see [branch_len]. *)
Variable ceil_log2 : Z → N.

(** [constants.net.max_checkpoint()]. *)
Variable max_checkpoint : Z.

(** [len(set([height for (_, height) in unverified.items()
              if height // 2016 == tx_height // 2016]))] *)
Definition headers_in_chunk_period (unverified : list (string * Z)) (tx_height : Z) : Z :=
  Z.of_nat (size (list_to_set
    (filter (λ h, h / 2016 = tx_height / 2016) unverified.*2) : gset Z)).

(** One iteration of the [for] loop; [continue] is returning the state
    with nothing spawned. *)
Definition request_proofs_body (local_height : Z) (unverified : list (string * Z))
    (self : SPV) (tx_hash : string) (tx_height : Z) : SPV * list task :=
  if bool_decide (tx_hash ∈ requested_merkle self ∨ tx_hash ∈ dom (merkle_roots self))
  then (self, [])
  else if bool_decide (tx_height ≤ 0 ∨ local_height < tx_height)
  then (self, [])
  else
    let request_now use_individual_header_proof :=
      (set_requested_merkle self ({[tx_hash]} ∪ requested_merkle self),
       [request_and_verify_single_proof tx_hash tx_height use_individual_header_proof]) in
    match read_header (blockchain self) tx_height with
    | None =>
        if bool_decide (tx_height < max_checkpoint)
        then if is_chunk_cheaper ceil_log2 max_checkpoint (headers_in_chunk_period unverified tx_height)
             then (self, [request_chunk tx_height true])
             else request_now true
        else (self, [])
    | Some _ => request_now false
    end.

Fixpoint request_proofs_loop (local_height : Z) (unverified items : list (string * Z))
    (self : SPV) : SPV * list task :=
  match items with
  | [] => (self, [])
  | (tx_hash, tx_height) :: rest =>
      let '(self1, spawned1) :=
        request_proofs_body local_height unverified self tx_hash tx_height in
      let '(self2, spawned2) := request_proofs_loop local_height unverified rest self1 in
      (self2, spawned1 ++ spawned2)
  end.

(** The loop over a given dict of unverified transactions. *)
Definition request_proofs_over (unverified : list (string * Z)) (self : SPV)
    : SPV * list task :=
  request_proofs_loop (chain_height (blockchain self)) unverified unverified self.

(** [_request_proofs]; [main] calls it only with a wallet attached, and
    without one [self.wallet.get_unverified_txs()] raises. *)
Definition _request_proofs (self : SPV) : exn + SPV * list task :=
  match wallet self with
  | Some w => inr (request_proofs_over (get_unverified_txs w) self)
  | None => inl AttributeError
  end.

(** The transaction ids for which a verification task was spawned. *)
Definition dispatched (spawned : list task) : list string :=
  omap (λ t, match t with
             | request_and_verify_single_proof tx_hash _ _ => Some tx_hash
             | request_chunk _ _ => None
             end) spawned.

End Dispatcher.

(** ** 4.4 Verification task: [_request_and_verify_single_proof] *)

(** The server's answer to [blockchain.transaction.get_merkle]. *)
Record merkle_reply : Type := {
  block_height : Z;
  pos : Z;
  merkle : list string;
}.

(** What the network gives one run of the task: the outcome of each
    awaited request, the best chain at the two places the task reads it,
    and the [skipmerklecheck] configuration flag.
    [get_interface_for_stream_id] is [None] when no clean interface is
    ready, and otherwise carries the outcome of [get_block_header];
    [header_getter_fails_first] says whose exception [asyncio.gather]
    propagates when both requests fail. *)
Record Network : Type := {
  get_merkle_for_transaction : exn + merkle_reply;
  get_interface_for_stream_id : option (exn + header * bool);
  header_getter_fails_first : bool;
  network_blockchain : Blockchain;
  network_blockchain_under_bhi_lock : Blockchain;
  skipmerklecheck : bool;
}.

(** The statements of the task that touch the stores or the wallet, and
    the construction of the [TxMinedInfo], in execution order. *)
Inductive event : Type :=
  | ev_wallet_remove_unverified_tx (tx_hash : string) (tx_height : Z)
  | ev_requested_merkle_discard (tx_hash : string)
  | ev_merkle_roots_store (tx_hash : string) (root : option pyval)
  | ev_build_tx_info (info : TxMinedInfo)
  | ev_wallet_add_verified_tx (tx_hash : string) (info : TxMinedInfo).

(** The job after the task, the exception it ended with ([None] for a
    normal return) and what it did. *)
Record task_result : Type := {
  final : SPV;
  raised : option exn;
  trace : list event;
}.

Definition gather {A B : Type} (second_first : bool) (a : exn + A) (b : exn + B)
    : exn + A * B :=
  match a, b with
  | inr x, inr y => inr (x, y)
  | inl e, inr _ => inl e
  | inr _, inl e => inl e
  | inl ea, inl eb => inl (if second_first then eb else ea)
  end.

(** The [try] block: the Merkle proof, and in individual-header mode the
    header that came with its own proof. *)
Definition fetch_proof (net : Network) (use_individual_header_proof : bool)
    : exn + merkle_reply * option header :=
  if use_individual_header_proof then
    match get_interface_for_stream_id net with
    | None => inl NoCleanInterface
    | Some header_getter =>
        match gather (header_getter_fails_first net)
                (get_merkle_for_transaction net) header_getter with
        | inl e => inl e
        | inr (merkle, (header, proof_was_provided)) => inr (merkle, Some header)
        end
    end
  else
    match get_merkle_for_transaction net with
    | inl e => inl e
    | inr merkle => inr (merkle, None)
    end.

Section Task.

Variable hash_merkle_root :
  list string → string → Z → MerkleVerificationFailure + string.

(** [hash_header] from [.blockchain]. *)
Variable hash_header : header → string.

Definition raise (self : SPV) (e : exn) (done : list event) : task_result :=
  {| final := self; raised := Some e; trace := done |}.

(** The part after the Merkle check: "we passed all the tests". *)
Definition commit_verified (self : SPV) (tx_hash : string) (tx_height pos : Z)
    (header : option header) : task_result :=
  match header with
  | None => raise self AttributeError []
  | Some hdr =>
      let root := hdr !! "merkle_root" in
      let self1 := set_merkle_roots self (<[tx_hash := root]> (merkle_roots self)) in
      let self2 := set_requested_merkle self1 (requested_merkle self1 ∖ {[tx_hash]}) in
      let done := [ev_merkle_roots_store tx_hash root;
                   ev_requested_merkle_discard tx_hash] in
      match wallet self2 with
      | None => {| final := self2; raised := None; trace := done |}
      | Some w =>
          let header_hash := hash_header hdr in
          let tx_info := {| height := tx_height; timestamp := hdr !! "timestamp";
                            txpos := pos; header_hash := header_hash |} in
          {| final := set_wallet self2 (Some (add_verified_tx w tx_hash tx_info));
             raised := None;
             trace := done ++ [ev_build_tx_info tx_info;
                               ev_wallet_add_verified_tx tx_hash tx_info] |}
      end
  end.

Definition _request_and_verify_single_proof (net : Network) (self : SPV)
    (tx_hash : string) (tx_height : Z) (use_individual_header_proof : bool)
    : task_result :=
  match fetch_proof net use_individual_header_proof with
  | inl e =>
      match e, wallet self with
      | UntrustedServerReturnedError true, Some w =>
          {| final := set_requested_merkle
                        (set_wallet self (Some (remove_unverified_tx w tx_hash tx_height)))
                        (requested_merkle self ∖ {[tx_hash]});
             raised := None;
             trace := [ev_wallet_remove_unverified_tx tx_hash tx_height;
                       ev_requested_merkle_discard tx_hash] |}
      | _, _ => raise self e []
      end
  | inr (merkle_, header_with_proof) =>
      let tx_height := block_height merkle_ in
      let pos := pos merkle_ in
      let merkle_branch := merkle merkle_ in
      let header :=
        if use_individual_header_proof then header_with_proof
        else match read_header (network_blockchain net) tx_height with
             | Some hdr => Some hdr
             | None => read_header (network_blockchain_under_bhi_lock net) tx_height
             end in
      match verify_tx_is_in_block hash_merkle_root tx_hash merkle_branch pos header tx_height with
      | inl e =>
          if skipmerklecheck net then commit_verified self tx_hash tx_height pos header
          else match wallet self with
               | None => raise self (MerkleFailure e) []
               | Some _ => raise self (GracefulDisconnect e) []
               end
      | inr _ => commit_verified self tx_hash tx_height pos header
      end
  end.

End Task.

(** ** 4.5 Reorg handler: [_maybe_undo_verifications] *)

Section Reorg.

(** [Blockchain.get_height_of_last_common_block_with_chain]. *)
Variable get_height_of_last_common_block_with_chain : Blockchain → Blockchain → Z.

(** [cur_chain] is [self.network.blockchain()].  Without a wallet the
    call [self.wallet.undo_verifications] raises; [main] runs the handler
    only with a wallet attached. *)
Definition _maybe_undo_verifications (cur_chain : Blockchain) (self : SPV) : exn + SPV :=
  let old_chain := blockchain self in
  if bool_decide (chain_id cur_chain ≠ chain_id old_chain) then
    let self1 := set_blockchain self cur_chain in
    let above_height := get_height_of_last_common_block_with_chain cur_chain old_chain in
    match wallet self1 with
    | None => inl AttributeError
    | Some w =>
        let '(w', tx_hashes) := undo_verifications w (blockchain self1) above_height in
        inr (foldl remove_spv_proof_for_tx (set_wallet self1 (Some w')) tx_hashes)
    end
  else inr self.

End Reorg.

(** ** The job as a transition system *)

Section System.

Variable ceil_log2 : Z → N.
Variable max_checkpoint : Z.
Variable hash_merkle_root :
  list string → string → Z → MerkleVerificationFailure + string.
Variable hash_header : header → string.
Variable get_height_of_last_common_block_with_chain : Blockchain → Blockchain → Z.

(** What can happen to the job object between two observations: a run of
    the dispatcher, the completion of one verification task (with any
    arguments and any network behaviour), a run of the reorg handler
    against any current best chain, or a call of the public
    [remove_spv_proof_for_tx]. *)
Inductive step : SPV → SPV → Prop :=
  | step_request_proofs self self' spawned :
      _request_proofs ceil_log2 max_checkpoint self = inr (self', spawned) →
      step self self'
  | step_verify net self tx_hash tx_height use_individual_header_proof :
      step self
        (final (_request_and_verify_single_proof hash_merkle_root hash_header
                  net self tx_hash tx_height use_individual_header_proof))
  | step_maybe_undo cur_chain self self' :
      _maybe_undo_verifications get_height_of_last_common_block_with_chain
        cur_chain self = inr self' →
      step self self'
  | step_remove self tx_hash :
      step self (remove_spv_proof_for_tx self tx_hash).

(** Every cached root belongs to a transaction the attached wallet
    holds a verified record for. *)
Definition roots_recorded (self : SPV) : Prop :=
  ∃ w, wallet self = Some w ∧
       ∀ tx_hash, tx_hash ∈ dom (merkle_roots self) → tx_hash ∈ dom (verified_tx w).

End System.

(** ** Properties as the specification words them *)

(** [k] is the ceiling of the base-2 logarithm of [x]. *)
Definition is_ceil_log2 (x k : Z) : Prop :=
  0 ≤ k ∧ x ≤ 2 ^ k ∧ ∀ j, 0 ≤ j → x ≤ 2 ^ j → k ≤ j.

(** The break-even count: the chunk is cheaper exactly above
    [chunk_len // (branch_len + root_len + bare_header_len)]. *)
Definition break_even (ceil_log2 : Z → N) (max_checkpoint : Z) : Z :=
  chunk_len ceil_log2 max_checkpoint / (branch_len ceil_log2 max_checkpoint + root_len + bare_header_len).

(** "There exists a threshold count above which individual proofs are
    cheaper, and below which the chunk is cheaper." *)
Definition chunk_cheaper_below_threshold (ceil_log2 : Z → N) (max_checkpoint : Z) : Prop :=
  ∃ T, ∀ n, 0 ≤ n →
    (T < n → is_chunk_cheaper ceil_log2 max_checkpoint n = false) ∧
    (n < T → is_chunk_cheaper ceil_log2 max_checkpoint n = true).

(** "Commit order: compute verified record, then store root, then discard
    from wallet's unverified set", read on the trace of a task; the
    wallet call [add_verified_tx] is what discards from the unverified
    set. *)
Definition record_then_root_then_wallet (tx_hash : string) (tr : list event) : Prop :=
  ∃ (i j k : nat) info root info',
    (i < j < k)%nat ∧
    tr !! i = Some (ev_build_tx_info info) ∧
    tr !! j = Some (ev_merkle_roots_store tx_hash root) ∧
    tr !! k = Some (ev_wallet_add_verified_tx tx_hash info').

(** ** Concrete data for the examples *)

Module Examples.

Definition toy_hash_merkle_root (merkle_branch : list string) (tx_hash : string)
    (leaf_pos_in_tree : Z) : MerkleVerificationFailure + string :=
  inr (foldl (λ acc sibling, acc +:+ sibling) tx_hash merkle_branch).

Definition toy_hash_header (h : header) : string := "hash-of-header".

Definition header_abc : header :=
  {[ "merkle_root" := PyStr "abc"; "timestamp" := PyInt 1500000000 ]}.

(** A chain of height 5000 that has the header of height 100 only. *)
Definition chain_a : Blockchain :=
  {| chain_id := 1; chain_height := 5000;
     read_header := λ h, if bool_decide (h = 100) then Some header_abc else None |}.

(** A competing chain with no stored header. *)
Definition chain_b : Blockchain :=
  {| chain_id := 2; chain_height := 5001; read_header := λ _, None |}.

Definition txid (n : nat) : string := "tx" +:+ pretty n.

(** Transactions [tx1 .. txn] at heights [1 .. n]. *)
Definition txs_at_distinct_heights (n : nat) : list (string * Z) :=
  (λ i, (txid i, Z.of_nat i)) <$> seq 1 n.

Definition long_branch : list string := replicate 31 "00".

Definition wallet_two : Wallet :=
  {| unverified_tx := {[ "a" := 100; "b" := 7 ]}; verified_tx := ∅ |}.

Definition spv_two : SPV := _reset (Some wallet_two) chain_a.

Definition net_found : Network :=
  {| get_merkle_for_transaction :=
       inr {| block_height := 100; pos := 0; merkle := ["b"; "c"] |};
     get_interface_for_stream_id := None;
     header_getter_fails_first := false;
     network_blockchain := chain_a;
     network_blockchain_under_bhi_lock := chain_a;
     skipmerklecheck := false |}.

Definition net_not_found : Network :=
  {| get_merkle_for_transaction := inl (UntrustedServerReturnedError true);
     get_interface_for_stream_id := None;
     header_getter_fails_first := false;
     network_blockchain := chain_a;
     network_blockchain_under_bhi_lock := chain_a;
     skipmerklecheck := false |}.

(** The last checkpointed height of a checkpoint list of one chunk. *)
Definition mc1 : Z := 2016 * 1 - 1.

(** [ceil(log(x, 2))] at the two arguments the examples use, as CPython
    returns it: 11 at 2016 and 12 at 4032.  Nothing else is tabulated. *)
Definition ceil_log2_table (x : Z) : N :=
  if bool_decide (x = 2016) then 11%N
  else if bool_decide (x = 4032) then 12%N
  else 0%N.

(** [ceil(log(2**29, 2))] as CPython returns it: the quotient of the two
    double-precision logarithms is 29.000000000000004, so the ceiling is
    30 although [2**29] is an exact power of two. *)
Definition ceil_log2_at_2_29 (x : Z) : N :=
  if bool_decide (x = 2 ^ 29) then 30%N else 0%N.

(** 400 transactions at heights 1..400, all with a request in flight,
    and one more, ["late"], at height [mc1]; no header is stored. *)
Definition crowded_unverified : list (string * Z) :=
  txs_at_distinct_heights 400 ++ [("late", mc1)].

Definition crowded_spv : SPV :=
  {| wallet := None; blockchain := chain_b; merkle_roots := ∅;
     requested_merkle := list_to_set (txs_at_distinct_heights 400).*1 |}.

(** The last checkpointed height of a checkpoint list of two chunks. *)
Definition mc2 : Z := 2016 * 2 - 1.

(** A job without markers on a chain that stores no header. *)
Definition fresh_spv : SPV :=
  {| wallet := None; blockchain := chain_b; merkle_roots := ∅; requested_merkle := ∅ |}.

(** [spv_two] after one dispatcher run, and then after the task of
    ["a"] has verified it. *)
Definition spv_two_dispatched : SPV :=
  (request_proofs_over ceil_log2_table mc2 (get_unverified_txs wallet_two) spv_two).1.

Definition spv_two_a_verified : SPV :=
  final (_request_and_verify_single_proof toy_hash_merkle_root toy_hash_header
           net_found spv_two_dispatched "a" 100 false).

(** A wallet with two verified transactions, at heights 90 and 100, and
    the job that has verified them on [chain_a]. *)
Definition wallet_verified : Wallet :=
  {| unverified_tx := ∅;
     verified_tx :=
       {[ "old" := {| height := 90; timestamp := None; txpos := 0; header_hash := "h90" |};
          "new" := {| height := 100; timestamp := None; txpos := 1;
                    header_hash := "h100" |} ]} |}.

Definition spv_verified : SPV :=
  {| wallet := Some wallet_verified; blockchain := chain_a;
     merkle_roots := {[ "old" := Some (PyStr "r90"); "new" := Some (PyStr "r100") ]};
     requested_merkle := ∅ |}.

(** The two chains of the example part ways after height 95. *)
Definition common_95 (cur old : Blockchain) : Z := 95.

End Examples.

(** ** 4.6 Job loop: [main] *)

Section JobLoop.

(** [ceil(log(x, 2))] as the platform computes it, see [branch_len]. *)
Variable ceil_log2 : Z → N.

(** [constants.net.max_checkpoint()]. *)
Variable max_checkpoint : Z.

(** [Blockchain.get_height_of_last_common_block_with_chain]. *)
Variable get_height_of_last_common_block_with_chain : Blockchain → Blockchain → Z.

(** One pass through the body of [while True], up to the sleep:
    with a wallet the reorg handler and then the dispatcher, without one
    nothing.  [cur_chain] is what [self.network.blockchain()] returns
    inside the handler. *)
Definition main_cycle (cur_chain : Blockchain) (self : SPV) : exn + SPV * list task :=
  match wallet self with
  | Some _ =>
      match _maybe_undo_verifications get_height_of_last_common_block_with_chain
              cur_chain self with
      | inl e => inl e
      | inr self1 => _request_proofs ceil_log2 max_checkpoint self1
      end
  | None => inr (self, [])
  end.

(** When the dispatcher may spawn a task: a chunk request only for a
    positive height of the dict within the local chain, below the maximum
    checkpoint, without a stored header and with the chunk cheaper; a
    verification task only for an unmarked entry of the dict with a height
    in range, in individual-header mode exactly when the header is missing
    (which then lies below the maximum checkpoint with the chunk not
    cheaper). *)
Definition spawn_justified (local_height : Z) (unverified items : list (string * Z))
    (self : SPV) (t : task) : Prop :=
  match t with
  | request_chunk h can_return_early =>
      can_return_early = true ∧
      (∃ tx_hash, (tx_hash, h) ∈ items) ∧
      0 < h ≤ local_height ∧
      h < max_checkpoint ∧
      read_header (blockchain self) h = None ∧
      is_chunk_cheaper ceil_log2 max_checkpoint (headers_in_chunk_period unverified h) = true
  | request_and_verify_single_proof tx_hash h use_individual_header_proof =>
      (tx_hash, h) ∈ items ∧
      0 < h ≤ local_height ∧
      (tx_hash ∉ requested_merkle self) ∧
      (tx_hash ∉ dom (merkle_roots self)) ∧
      if use_individual_header_proof
      then read_header (blockchain self) h = None ∧
           h < max_checkpoint ∧
           is_chunk_cheaper ceil_log2 max_checkpoint (headers_in_chunk_period unverified h) = false
      else is_Some (read_header (blockchain self) h)
  end.

End JobLoop.

(** The header the task checks the proof against: the one that came with
    its own proof in individual-header mode, and otherwise the header of
    the best chain at the height the server reported, read once more
    under the lock if it is not there at first. *)
Definition task_header (net : Network) (use_individual_header_proof : bool)
    (header_with_proof : option header) (tx_height : Z) : option header :=
  if use_individual_header_proof then header_with_proof
  else match read_header (network_blockchain net) tx_height with
       | Some hdr => Some hdr
       | None => read_header (network_blockchain_under_bhi_lock net) tx_height
       end.

(** The outcome of the Merkle request is what the [try] block of the task
    ends with: the task awaits that request alone, or, in
    individual-header mode, a clean interface is ready and
    [asyncio.gather] does not propagate a failure of the header request
    first (the header request succeeds, or it does not fail before the
    Merkle request). *)
Definition merkle_request_decides (net : Network) (use_individual_header_proof : bool)
    : Prop :=
  use_individual_header_proof = false ∨
  ∃ header_getter,
    get_interface_for_stream_id net = Some header_getter ∧
    ((∃ reply, header_getter = inr reply) ∨ header_getter_fails_first net = false).

(** The two stores never hold the same id. *)
Definition stores_disjoint (self : SPV) : Prop :=
  ∀ tx_hash, tx_hash ∈ requested_merkle self → tx_hash ∉ dom (merkle_roots self).

(** ** More concrete data *)

Module MoreExamples.

(** The server answers for ["a"] with a branch that does not hash to the
    root of the stored header. *)
Definition net_wrong_branch : Network :=
  {| get_merkle_for_transaction :=
       inr {| block_height := 100; pos := 0; merkle := ["x"; "y"] |};
     get_interface_for_stream_id := None;
     header_getter_fails_first := false;
     network_blockchain := Examples.chain_a;
     network_blockchain_under_bhi_lock := Examples.chain_a;
     skipmerklecheck := false |}.

(** The same answer with [skipmerklecheck] configured. *)
Definition net_wrong_branch_skip : Network :=
  {| get_merkle_for_transaction :=
       inr {| block_height := 100; pos := 0; merkle := ["x"; "y"] |};
     get_interface_for_stream_id := None;
     header_getter_fails_first := false;
     network_blockchain := Examples.chain_a;
     network_blockchain_under_bhi_lock := Examples.chain_a;
     skipmerklecheck := true |}.

(** The server reports height 50, where no header is stored, and
    [skipmerklecheck] is configured. *)
Definition net_no_header_skip : Network :=
  {| get_merkle_for_transaction :=
       inr {| block_height := 50; pos := 0; merkle := ["b"; "c"] |};
     get_interface_for_stream_id := None;
     header_getter_fails_first := false;
     network_blockchain := Examples.chain_a;
     network_blockchain_under_bhi_lock := Examples.chain_a;
     skipmerklecheck := true |}.

(** In individual-header mode: the server answers the Merkle request
    with "not at that height", and the header request fails, first, with
    a transport error. *)
Definition net_not_found_header_fails_first : Network :=
  {| get_merkle_for_transaction := inl (UntrustedServerReturnedError true);
     get_interface_for_stream_id := Some (inl TransportError);
     header_getter_fails_first := true;
     network_blockchain := Examples.chain_a;
     network_blockchain_under_bhi_lock := Examples.chain_a;
     skipmerklecheck := false |}.

(** A job without a wallet that holds an in-flight marker for ["a"]. *)
Definition spv_no_wallet : SPV :=
  {| wallet := None; blockchain := Examples.chain_a; merkle_roots := ∅;
     requested_merkle := {[ "a" ]} |}.

(** A chain that forked off [chain_a] and stores the header of height 100. *)
Definition chain_c : Blockchain :=
  {| chain_id := 3; chain_height := 6000;
     read_header := λ h, if bool_decide (h = 100) then Some Examples.header_abc else None |}.

End MoreExamples.

(** * Theorems *)

(** ** Cost model *)

Lemma log2_up_is_ceil_log2 (x : Z) : 0 < x → is_ceil_log2 x (Z.log2_up x).
Proof.
  intros Hx. unfold is_ceil_log2.
  split; [apply Z.log2_up_nonneg|].
  destruct (decide (x = 1)) as [->|Hne].
  - split; [done|]. intros j Hj _. exact Hj.
  - destruct (Z.log2_up_spec x) as [Hlo Hhi]; [lia|].
    split; [exact Hhi|].
    intros j Hj Hle.
    destruct (decide (Z.log2_up x ≤ j)) as [|Hgt]; [done|].
    assert (2 ^ j ≤ 2 ^ Z.pred (Z.log2_up x)) by (apply Z.pow_le_mono_r; lia).
    lia.
Qed.


Lemma branch_len_nonneg (ceil_log2 : Z → N) (max_checkpoint : Z) :
  0 ≤ branch_len ceil_log2 max_checkpoint.
Proof. unfold branch_len. lia. Qed.

Lemma per_header_cost_pos (ceil_log2 : Z → N) (max_checkpoint : Z) :
  0 < branch_len ceil_log2 max_checkpoint + root_len + bare_header_len.
Proof.
  pose proof (branch_len_nonneg ceil_log2 max_checkpoint).
  unfold root_len, bare_header_len. lia.
Qed.

Lemma is_chunk_cheaper_break_even (ceil_log2 : Z → N) (max_checkpoint n : Z) :
  is_chunk_cheaper ceil_log2 max_checkpoint n = true ↔ break_even ceil_log2 max_checkpoint < n.
Proof.
  unfold is_chunk_cheaper, individual_headers_len, break_even.
  pose proof (per_header_cost_pos ceil_log2 max_checkpoint) as Hpos.
  set (per := branch_len ceil_log2 max_checkpoint + root_len + bare_header_len) in *.
  set (c := chunk_len ceil_log2 max_checkpoint).
  rewrite Z.ltb_lt. split; intros H.
  - apply Z.div_lt_upper_bound; lia.
  - pose proof (Z.mul_div_le c per Hpos).
    pose proof (Z.mod_pos_bound c per Hpos).
    pose proof (Z.div_mod c per).
    nia.
Qed.



(** Where the platform's logarithm rounds up across an integer the exact
    formula is not what the code computes: with 30 for
    [ceil(log(2**29, 2))] the chunk counts as cheaper at 152 headers,
    which the formula with the exact ceiling 29 denies. *)
Example is_chunk_cheaper_rounding :
  is_ceil_log2 (2 ^ 29) 29 ∧
  is_chunk_cheaper Examples.ceil_log2_at_2_29 (2 ^ 29 - 1) 152 = true ∧
  ¬ (2016 * 80 + 32 * 29 + 32 < 152 * (32 * 29 + 32 + 80)).
Proof.
  split; [|split; [vm_compute; reflexivity|lia]].
  change 29 with (Z.log2_up (2 ^ 29)) at 2. apply log2_up_is_ceil_log2. lia.
Qed.

(** C5, as the specification words it, fails: with one chunk of
    checkpoints no threshold has the chunk cheaper below it and the
    individual proofs cheaper above it. *)
Lemma chunk_cheaper_below_threshold_fails :
  ¬ chunk_cheaper_below_threshold Examples.ceil_log2_table Examples.mc1.
Proof.
  intros [T HT].
  destruct (HT 0 ltac:(lia)) as [_ H0].
  destruct (HT 2000 ltac:(lia)) as [H2000 _].
  destruct (decide (T < 2000)) as [Hlt|Hge].
  - specialize (H2000 Hlt). vm_compute in H2000. discriminate.
  - assert (0 < T) as Hpos by lia. specialize (H0 Hpos).
    vm_compute in H0. discriminate.
Qed.

(** C5, amended. The truth value of [is_chunk_cheaper] is monotonically
    non-decreasing in the count: there is a break-even threshold, the
    chunk is cheaper exactly for the counts above it, and once the chunk
    is cheaper it stays cheaper for every larger count. *)
Theorem is_chunk_cheaper_threshold (ceil_log2 : Z → N) (max_checkpoint : Z) :
  0 ≤ max_checkpoint →
  0 ≤ break_even ceil_log2 max_checkpoint ∧
  (∀ n, is_chunk_cheaper ceil_log2 max_checkpoint n = true ↔ break_even ceil_log2 max_checkpoint < n) ∧
  (∀ n1 n2, n1 ≤ n2 → is_chunk_cheaper ceil_log2 max_checkpoint n1 = true →
            is_chunk_cheaper ceil_log2 max_checkpoint n2 = true).
Proof.
  intros _. split; [|split].
  - unfold break_even. apply Z.div_pos; [|apply per_header_cost_pos].
    unfold chunk_len, bare_header_len, root_len.
    pose proof (branch_len_nonneg ceil_log2 max_checkpoint). lia.
  - apply is_chunk_cheaper_break_even.
  - intros n1 n2 Hle. rewrite !is_chunk_cheaper_break_even. lia.
Qed.

Lemma is_chunk_cheaper_threshold_witness :
  0 ≤ break_even Examples.ceil_log2_table 2015 ∧
  (∀ n, is_chunk_cheaper Examples.ceil_log2_table 2015 n = true ↔ break_even Examples.ceil_log2_table 2015 < n) ∧
  (∀ n1 n2, n1 ≤ n2 → is_chunk_cheaper Examples.ceil_log2_table 2015 n1 = true →
            is_chunk_cheaper Examples.ceil_log2_table 2015 n2 = true).
Proof. apply (is_chunk_cheaper_threshold Examples.ceil_log2_table 2015). lia. Defined.

Example break_even_one_chunk : break_even Examples.ceil_log2_table Examples.mc1 = 348.
Proof. reflexivity. Qed.

Example is_chunk_cheaper_348 : is_chunk_cheaper Examples.ceil_log2_table Examples.mc1 348 = false.
Proof. reflexivity. Qed.

Example is_chunk_cheaper_349 : is_chunk_cheaper Examples.ceil_log2_table Examples.mc1 349 = true.
Proof. reflexivity. Qed.

(** ** Merkle proof verifier *)

Section VerifierFacts.

Variable hash_merkle_root :
  list string → string → Z → MerkleVerificationFailure + string.

(** C3. Without a header object the verifier fails with
    [MissingBlockHeader], whatever the other arguments are. *)
Theorem verify_missing_header (tx_hash : string) (merkle_branch : list string)
    (leaf_pos_in_tree block_height : Z) :
  verify_tx_is_in_block hash_merkle_root tx_hash merkle_branch leaf_pos_in_tree
    None block_height
  = inl (MissingBlockHeader tx_hash block_height).
Proof. reflexivity. Qed.

(** The empty dict is falsy too. *)
Lemma verify_empty_header (tx_hash : string) (merkle_branch : list string)
    (leaf_pos_in_tree block_height : Z) :
  verify_tx_is_in_block hash_merkle_root tx_hash merkle_branch leaf_pos_in_tree
    (Some ∅) block_height
  = inl (MissingBlockHeader tx_hash block_height).
Proof. reflexivity. Qed.

(** C2, amended. When a non-empty header is supplied, a branch of more
    than 30 entries fails with the branch-too-long failure, whatever the
    branch holds and whatever the other arguments are. *)
Theorem verify_branch_too_long (tx_hash : string) (merkle_branch : list string)
    (leaf_pos_in_tree : Z) (hdr : header) (block_height : Z) :
  hdr ≠ ∅ →
  (30 < length merkle_branch)%nat →
  verify_tx_is_in_block hash_merkle_root tx_hash merkle_branch leaf_pos_in_tree
    (Some hdr) block_height
  = inl (BranchTooLong (length merkle_branch)).
Proof.
  intros Hne Hlen. unfold verify_tx_is_in_block, truthy.
  rewrite (bool_decide_eq_true_2 _ Hne). simpl.
  by rewrite (bool_decide_eq_true_2 _ Hlen).
Qed.

End VerifierFacts.

(** C2, as the specification words it, fails: a branch of 31 entries
    checked without a header fails with [MissingBlockHeader], not with the
    branch-too-long failure. *)
Lemma verify_long_branch_without_header :
  (30 < length Examples.long_branch)%nat ∧
  verify_tx_is_in_block Examples.toy_hash_merkle_root "a" Examples.long_branch 0 None 100
  = inl (MissingBlockHeader "a" 100) ∧
  verify_tx_is_in_block Examples.toy_hash_merkle_root "a" Examples.long_branch 0 None 100
  ≠ inl (BranchTooLong (length Examples.long_branch)).
Proof. split; [vm_compute; lia|]. split; [reflexivity|discriminate]. Qed.

Lemma verify_branch_too_long_witness :
  verify_tx_is_in_block Examples.toy_hash_merkle_root "a" Examples.long_branch 0
    (Some Examples.header_abc) 100
  = inl (BranchTooLong (length Examples.long_branch)).
Proof.
  apply (verify_branch_too_long Examples.toy_hash_merkle_root "a" Examples.long_branch 0
           Examples.header_abc 100).
  - apply (bool_decide_unpack _). vm_compute. exact I.
  - vm_compute. lia.
Defined.

(** ** Proof state store *)

(** C10. [remove_spv_proof_for_tx] is a total function of the store and
    the id; afterwards the id is in neither structure, every other id is
    as before, the wallet and the held chain are untouched, and a second
    call changes nothing more. *)
Theorem remove_spv_proof_for_tx_spec (self : SPV) (tx_hash : string) :
  let self' := remove_spv_proof_for_tx self tx_hash in
  (tx_hash ∉ dom (merkle_roots self')) ∧
  (tx_hash ∉ requested_merkle self') ∧
  (∀ other, other ≠ tx_hash →
     merkle_roots self' !! other = merkle_roots self !! other ∧
     (other ∈ requested_merkle self' ↔ other ∈ requested_merkle self)) ∧
  wallet self' = wallet self ∧
  blockchain self' = blockchain self ∧
  remove_spv_proof_for_tx self' tx_hash = self'.
Proof.
  simpl. repeat split.
  - rewrite dom_delete_L. set_solver.
  - set_solver.
  - by rewrite lookup_delete_ne.
  - set_solver.
  - set_solver.
  - unfold remove_spv_proof_for_tx, set_requested_merkle, set_merkle_roots. simpl.
    f_equal.
    + apply delete_id, lookup_delete_eq.
    + set_solver.
Qed.

Lemma remove_spv_proof_for_tx_spec_witness :
  merkle_roots (remove_spv_proof_for_tx
                  (set_merkle_roots Examples.spv_two {[ "a" := None; "b" := None ]}) "a")
    !! "b"
  = Some None.
Proof.
  destruct (remove_spv_proof_for_tx_spec
              (set_merkle_roots Examples.spv_two {[ "a" := None; "b" := None ]}) "a")
    as (_ & _ & Hother & _).
  destruct (Hother "b") as [-> _]; [discriminate|].
  reflexivity.
Defined.

Lemma foldl_remove_spv_proof_for_tx (tx_hashes : list string) (self : SPV) :
  let self' := foldl remove_spv_proof_for_tx self tx_hashes in
  wallet self' = wallet self ∧
  blockchain self' = blockchain self ∧
  merkle_roots self' = filter (λ kv, kv.1 ∉ tx_hashes) (merkle_roots self) ∧
  requested_merkle self' = requested_merkle self ∖ list_to_set tx_hashes.
Proof.
  revert self. induction tx_hashes as [|tx rest IH]; intros self; simpl.
  - repeat split; [|set_solver].
    symmetry. apply map_filter_id. intros ? ? _. simpl. apply not_elem_of_nil.
  - destruct (IH (remove_spv_proof_for_tx self tx)) as (Hw & Hb & Hr & Hq).
    rewrite Hw, Hb, Hr, Hq. simpl. repeat split; [|set_solver].
    apply map_eq. intros k.
    rewrite !map_lookup_filter.
    destruct (decide (k = tx)) as [->|Hne].
    + rewrite lookup_delete_eq. simpl.
      destruct (merkle_roots self !! tx) as [v|]; simpl; [|done].
      rewrite option_guard_False; [done|]. simpl. intros H. apply H. left.
    + rewrite lookup_delete_ne by done.
      destruct (merkle_roots self !! k) as [v|]; simpl; [|done].
      apply option_guard_iff. simpl. rewrite elem_of_cons. naive_solver.
Qed.

(** ** Request dispatcher *)

Section DispatcherFacts.

Variable ceil_log2 : Z → N.
Variable max_checkpoint : Z.

Lemma dispatched_app (l1 l2 : list task) :
  dispatched (l1 ++ l2) = dispatched l1 ++ dispatched l2.
Proof. apply omap_app. Qed.

(** One iteration either leaves the in-flight set alone and spawns no
    verification task, or marks exactly its own, so far unmarked,
    transaction and spawns its task. *)
Lemma request_proofs_body_cases lh unverified self tx_hash tx_height self' spawned :
  request_proofs_body ceil_log2 max_checkpoint lh unverified self tx_hash tx_height
    = (self', spawned) →
  wallet self' = wallet self ∧
  blockchain self' = blockchain self ∧
  merkle_roots self' = merkle_roots self ∧
  ((dispatched spawned = [] ∧ requested_merkle self' = requested_merkle self) ∨
   (dispatched spawned = [tx_hash] ∧
    (tx_hash ∉ requested_merkle self) ∧ (tx_hash ∉ dom (merkle_roots self)) ∧
    requested_merkle self' = {[tx_hash]} ∪ requested_merkle self)).
Proof.
  unfold request_proofs_body. intros H.
  case_bool_decide as Hseen; [simplify_eq; naive_solver|].
  case_bool_decide as Hheight; [simplify_eq; naive_solver|].
  assert ((tx_hash ∉ requested_merkle self) ∧ (tx_hash ∉ dom (merkle_roots self)))
    as [? ?] by tauto.
  destruct (read_header (blockchain self) tx_height).
  - simplify_eq. simpl. naive_solver.
  - case_bool_decide; [|simplify_eq; naive_solver].
    destruct (is_chunk_cheaper _ _); simplify_eq; simpl; naive_solver.
Qed.

Lemma request_proofs_loop_spec lh unverified items self self' spawned :
  request_proofs_loop ceil_log2 max_checkpoint lh unverified items self = (self', spawned) →
  wallet self' = wallet self ∧
  blockchain self' = blockchain self ∧
  merkle_roots self' = merkle_roots self ∧
  requested_merkle self' = list_to_set (dispatched spawned) ∪ requested_merkle self ∧
  NoDup (dispatched spawned) ∧
  (∀ tx, tx ∈ dispatched spawned →
     tx ∈ items.*1 ∧ (tx ∉ requested_merkle self) ∧ (tx ∉ dom (merkle_roots self))).
Proof.
  revert self self' spawned.
  induction items as [|[tx_hash tx_height] rest IH]; intros self self' spawned H; simpl in H.
  - simplify_eq. simpl. repeat split; try done; try set_solver. constructor.
  - destruct (request_proofs_body _ _ _ _ _ _) as [self1 sp1] eqn:Hbody.
    destruct (request_proofs_loop _ _ _ _ _) as [self2 sp2] eqn:Hloop.
    simplify_eq.
    apply request_proofs_body_cases in Hbody as (Hw1 & Hb1 & Hr1 & Hcases).
    apply IH in Hloop as (Hw2 & Hb2 & Hr2 & Hq2 & Hnd2 & Hin2).
    rewrite dispatched_app.
    split; [congruence|]. split; [congruence|]. split; [congruence|].
    destruct Hcases as [[Hd Hq1]|(Hd & Hnq & Hnr & Hq1)]; rewrite Hd; simpl.
    + rewrite Hq2, Hq1. split; [done|]. split; [done|].
      intros tx Htx. destruct (Hin2 tx Htx) as (? & ? & ?).
      rewrite Hq1 in *. rewrite Hr1 in *. set_solver.
    + rewrite Hq2, Hq1. split; [set_solver|]. split.
      * constructor; [|done]. intros Hin. apply Hin2 in Hin as (_ & Hn & _).
        rewrite Hq1 in Hn. set_solver.
      * intros tx [->|Htx]%elem_of_cons; [set_solver|].
        destruct (Hin2 tx Htx) as (? & ? & ?).
        rewrite Hq1 in *. rewrite Hr1 in *. set_solver.
Qed.

(** C1. A transaction id that is in [requested_merkle] or in
    [merkle_roots] is not dispatched by a run of the dispatcher; and when
    the dispatcher runs again from a state in which every transaction the
    first run dispatched still has its in-flight marker or a verified
    root (in particular, directly from the state the first run left), no
    transaction is dispatched twice over the two runs. *)
Theorem request_proofs_at_most_once (unverified1 unverified2 : list (string * Z))
    (self between : SPV) (tx_hash : string) :
  let run1 := request_proofs_over ceil_log2 max_checkpoint unverified1 self in
  ((tx_hash ∈ requested_merkle self ∨ tx_hash ∈ dom (merkle_roots self)) →
   tx_hash ∉ dispatched run1.2) ∧
  (Forall (λ tx, tx ∈ requested_merkle between ∨ tx ∈ dom (merkle_roots between))
     (dispatched run1.2) →
   NoDup (dispatched run1.2 ++
          dispatched (request_proofs_over ceil_log2 max_checkpoint unverified2 between).2)) ∧
  NoDup (dispatched run1.2 ++
         dispatched (request_proofs_over ceil_log2 max_checkpoint unverified2 run1.1).2).
Proof.
  intros run1.
  destruct run1 as [self1 sp1] eqn:Hrun1. unfold run1 in Hrun1.
  apply request_proofs_loop_spec in Hrun1 as (_ & _ & _ & Hq1 & Hnd1 & Hin1).
  assert (∀ st, Forall (λ tx, tx ∈ requested_merkle st ∨ tx ∈ dom (merkle_roots st))
                  (dispatched sp1) →
                NoDup (dispatched sp1 ++
                       dispatched (request_proofs_over ceil_log2 max_checkpoint unverified2 st).2))
    as Hsecond.
  { intros st Hkept.
    destruct (request_proofs_over ceil_log2 max_checkpoint unverified2 st) as [self2 sp2] eqn:Hrun2.
    apply request_proofs_loop_spec in Hrun2 as (_ & _ & _ & _ & Hnd2 & Hin2).
    apply NoDup_app. split; [done|]. split; [|done].
    intros tx Htx1 Htx2. rewrite Forall_forall in Hkept.
    destruct (Hin2 tx Htx2) as (_ & ? & ?). destruct (Hkept tx Htx1); done. }
  simpl. split; [|split].
  - intros Hseen Hin. destruct (Hin1 _ Hin) as (_ & ? & ?). tauto.
  - apply Hsecond.
  - apply Hsecond. apply Forall_forall. intros tx Htx. left. rewrite Hq1. set_solver.
Qed.

Lemma request_proofs_loop_chunk lh (unverified items : list (string * Z)) (self : SPV)
    (tx_hash : string) (tx_height : Z) :
  NoDup items.*1 →
  (tx_hash, tx_height) ∈ items →
  (tx_hash ∉ requested_merkle self) →
  (tx_hash ∉ dom (merkle_roots self)) →
  0 < tx_height ≤ lh →
  tx_height < max_checkpoint →
  read_header (blockchain self) tx_height = None →
  is_chunk_cheaper ceil_log2 max_checkpoint (headers_in_chunk_period unverified tx_height) = true →
  let run := request_proofs_loop ceil_log2 max_checkpoint lh unverified items self in
  request_chunk tx_height true ∈ run.2 ∧
  (tx_hash ∉ dispatched run.2) ∧
  (tx_hash ∉ requested_merkle run.1).
Proof.
  intros Hnd Hin Hnq Hnr Hheight Hmc Hhdr Hcheap.
  revert self Hnq Hnr Hhdr.
  induction items as [|[tx0 h0] rest IH]; intros self Hnq Hnr Hhdr.
  { by apply elem_of_nil in Hin. }
  simpl. simpl in Hnd. apply NoDup_cons in Hnd as [Hfresh Hnd].
  destruct (request_proofs_body _ _ _ _ _ _) as [self1 sp1] eqn:Hbody.
  destruct (request_proofs_loop _ _ _ _ _) as [self2 sp2] eqn:Hloop.
  simpl. rewrite dispatched_app.
  apply elem_of_cons in Hin as [Heq|Hin].
  - simplify_eq.
    unfold request_proofs_body in Hbody.
    rewrite bool_decide_eq_false_2 in Hbody by tauto.
    rewrite bool_decide_eq_false_2 in Hbody by lia.
    rewrite Hhdr in Hbody.
    rewrite bool_decide_eq_true_2 in Hbody by done.
    rewrite Hcheap in Hbody. simplify_eq.
    apply request_proofs_loop_spec in Hloop as (_ & _ & _ & Hq & _ & Hkeys).
    simpl. split; [left|].
    assert (tx0 ∉ dispatched sp2) as Hnot.
    { intros Hd. apply Hkeys in Hd as [? _]. done. }
    split; [done|]. rewrite Hq. set_solver.
  - assert (tx0 ≠ tx_hash) as Hne.
    { intros ->. apply Hfresh. apply list_elem_of_fmap. by exists (tx_hash, tx_height). }
    apply request_proofs_body_cases in Hbody as (_ & Hb1 & Hr1 & Hcases).
    assert ((tx_hash ∉ dispatched sp1) ∧ (tx_hash ∉ requested_merkle self1)) as [Hd1 Hq1].
    { destruct Hcases as [[-> ->]|(-> & _ & _ & ->)]; set_solver. }
    specialize (IH Hnd Hin self1 Hq1).
    rewrite Hr1, Hb1, Hloop in IH. simpl in IH.
    destruct IH as (Hc & Hd & Hq); try done.
    split; [set_solver|]. split; [set_solver|done].
Qed.

(** C6, amended. A transaction of the unverified dict that has no
    in-flight marker and no verified root, whose height is positive, at
    most the local height and strictly below the maximum checkpoint
    height, whose header is absent, and whose retarget period holds
    enough distinct unverified heights for the chunk to be cheaper: the
    cycle requests the header chunk for its height and spawns no
    verification task for it, and it stays unmarked. *)
Theorem request_proofs_chunk (unverified : list (string * Z)) (self : SPV)
    (tx_hash : string) (tx_height : Z) :
  NoDup unverified.*1 →
  (tx_hash, tx_height) ∈ unverified →
  (tx_hash ∉ requested_merkle self) →
  (tx_hash ∉ dom (merkle_roots self)) →
  0 < tx_height ≤ chain_height (blockchain self) →
  tx_height < max_checkpoint →
  read_header (blockchain self) tx_height = None →
  is_chunk_cheaper ceil_log2 max_checkpoint (headers_in_chunk_period unverified tx_height) = true →
  let run := request_proofs_over ceil_log2 max_checkpoint unverified self in
  request_chunk tx_height true ∈ run.2 ∧
  (tx_hash ∉ dispatched run.2) ∧
  (tx_hash ∉ requested_merkle run.1).
Proof. intros. by apply request_proofs_loop_chunk. Qed.

End DispatcherFacts.

(** C6, as the specification words it, fails at the boundary: the
    transaction ["late"] sits at exactly the maximum checkpoint height,
    its header is absent and 401 distinct unverified heights share its
    retarget period, which makes the chunk cheaper; the cycle spawns
    nothing at all, so no chunk request is issued. *)
Lemma request_proofs_no_chunk_at_max_checkpoint :
  ("late", Examples.mc1) ∈ Examples.crowded_unverified ∧
  Examples.mc1 ≤ Examples.mc1 ∧
  0 < Examples.mc1 ≤ chain_height (blockchain Examples.crowded_spv) ∧
  ("late" ∉ requested_merkle Examples.crowded_spv) ∧
  ("late" ∉ dom (merkle_roots Examples.crowded_spv)) ∧
  read_header (blockchain Examples.crowded_spv) Examples.mc1 = None ∧
  is_chunk_cheaper Examples.ceil_log2_table Examples.mc1
    (headers_in_chunk_period Examples.crowded_unverified Examples.mc1) = true ∧
  (request_proofs_over Examples.ceil_log2_table Examples.mc1 Examples.crowded_unverified Examples.crowded_spv).2 = [].
Proof.
  split; [apply elem_of_app; right; apply list_elem_of_singleton; reflexivity|].
  split; [reflexivity|].
  split; [vm_compute; split; [reflexivity|discriminate]|].
  split; [apply (bool_decide_unpack _); vm_compute; exact I|].
  split; [apply (bool_decide_unpack _); vm_compute; exact I|].
  split; [reflexivity|].
  split; vm_compute; reflexivity.
Qed.

Lemma request_proofs_chunk_witness :
  let run := request_proofs_over Examples.ceil_log2_table Examples.mc2 (Examples.txs_at_distinct_heights 400)
               Examples.fresh_spv in
  request_chunk 100 true ∈ run.2 ∧
  ("tx100" ∉ dispatched run.2) ∧
  ("tx100" ∉ requested_merkle run.1).
Proof.
  apply (request_proofs_chunk Examples.ceil_log2_table Examples.mc2 (Examples.txs_at_distinct_heights 400)
           Examples.fresh_spv "tx100" 100).
  - apply (bool_decide_unpack _). vm_compute. exact I.
  - apply (bool_decide_unpack _). vm_compute. exact I.
  - apply (bool_decide_unpack _). vm_compute. exact I.
  - apply (bool_decide_unpack _). vm_compute. exact I.
  - vm_compute. split; [reflexivity|discriminate].
  - reflexivity.
  - reflexivity.
  - vm_compute. reflexivity.
Defined.

Lemma request_proofs_at_most_once_witness :
  ("a" ∉ dispatched (request_proofs_over Examples.ceil_log2_table Examples.mc2
                       (get_unverified_txs Examples.wallet_two)
                       Examples.spv_two_dispatched).2) ∧
  NoDup (dispatched (request_proofs_over Examples.ceil_log2_table Examples.mc2
                       (get_unverified_txs Examples.wallet_two) Examples.spv_two).2 ++
         dispatched (request_proofs_over Examples.ceil_log2_table Examples.mc2
                       (get_unverified_txs Examples.wallet_two)
                       Examples.spv_two_a_verified).2).
Proof.
  split.
  - destruct (request_proofs_at_most_once Examples.ceil_log2_table Examples.mc2
                (get_unverified_txs Examples.wallet_two)
                (get_unverified_txs Examples.wallet_two)
                Examples.spv_two_dispatched Examples.spv_two "a") as (Hskip & _ & _).
    apply Hskip. left. apply (bool_decide_unpack _). vm_compute. exact I.
  - destruct (request_proofs_at_most_once Examples.ceil_log2_table Examples.mc2
                (get_unverified_txs Examples.wallet_two)
                (get_unverified_txs Examples.wallet_two)
                Examples.spv_two Examples.spv_two_a_verified "a") as (_ & Hkept & _).
    apply Hkept. apply (bool_decide_unpack _). vm_compute. exact I.
Defined.

Example dispatch_two :
  (request_proofs_over Examples.ceil_log2_table Examples.mc2 (get_unverified_txs Examples.wallet_two)
     Examples.spv_two).2
  = [request_and_verify_single_proof "a" 100 false;
     request_and_verify_single_proof "b" 7 true].
Proof. vm_compute. reflexivity. Qed.

Example dispatch_two_again :
  (request_proofs_over Examples.ceil_log2_table Examples.mc2 (get_unverified_txs Examples.wallet_two)
     Examples.spv_two_dispatched).2 = [].
Proof. vm_compute. reflexivity. Qed.

(** 400 pending transactions of one retarget period that all sit at the
    same height count as a single header: by the number of transactions
    the chunk would be cheaper, by the number of distinct heights it is
    not, and every one of them is dispatched with an individual header
    proof. *)
Example same_height_counts_once :
  let unverified := (λ i, (Examples.txid i, 100)) <$> seq 1 400 in
  is_chunk_cheaper Examples.ceil_log2_table Examples.mc2 400 = true ∧
  headers_in_chunk_period unverified 100 = 1 ∧
  is_chunk_cheaper Examples.ceil_log2_table Examples.mc2 1 = false ∧
  length (dispatched (request_proofs_over Examples.ceil_log2_table Examples.mc2 unverified Examples.fresh_spv).2)
  = 400%nat.
Proof. vm_compute. done. Qed.

(** ** Verification task *)

(** Without individual-header mode the [try] block fails exactly as the
    Merkle request does. *)
Lemma fetch_proof_merkle_only (net : Network) (e : exn) :
  get_merkle_for_transaction net = inl e → fetch_proof net false = inl e.
Proof. unfold fetch_proof. by intros ->. Qed.

(** In individual-header mode a failed Merkle request is what the [try]
    block raises unless the header request fails first. *)
Lemma fetch_proof_with_header (net : Network) (e : exn) header_getter :
  get_interface_for_stream_id net = Some header_getter →
  get_merkle_for_transaction net = inl e →
  ((∃ reply, header_getter = inr reply) ∨ header_getter_fails_first net = false) →
  fetch_proof net true = inl e.
Proof.
  unfold fetch_proof. intros -> -> Hfirst.
  destruct header_getter as [e'|[h b]]; simpl; [|done].
  destruct Hfirst as [[? [=]]| ->]. done.
Qed.

Section TaskFacts.

Variable hash_merkle_root :
  list string → string → Z → MerkleVerificationFailure + string.
Variable hash_header : header → string.


(** A failed Merkle request is what the [try] block raises whenever
    [merkle_request_decides]. *)
Lemma fetch_proof_merkle_error (net : Network) (use_individual_header_proof : bool)
    (e : exn) :
  get_merkle_for_transaction net = inl e →
  merkle_request_decides net use_individual_header_proof →
  fetch_proof net use_individual_header_proof = inl e.
Proof.
  intros Hmerkle [->|(header_getter & Hinterface & Hfirst)].
  - by apply fetch_proof_merkle_only.
  - destruct use_individual_header_proof.
    + by eapply fetch_proof_with_header.
    + by apply fetch_proof_merkle_only.
Qed.

(** What the task does with an exception of its [try] block. *)
Lemma task_try_block_raises (net : Network) (self : SPV) (w : Wallet)
    (tx_hash : string) (tx_height : Z) (use_individual_header_proof : bool) :
  wallet self = Some w →
  let r := _request_and_verify_single_proof hash_merkle_root hash_header
           net self tx_hash tx_height use_individual_header_proof in
  (fetch_proof net use_individual_header_proof = inl (UntrustedServerReturnedError true) →
     raised r = None ∧
     trace r = [ev_wallet_remove_unverified_tx tx_hash tx_height;
                ev_requested_merkle_discard tx_hash] ∧
     wallet (final r) = Some (remove_unverified_tx w tx_hash tx_height) ∧
     unverified_tx (remove_unverified_tx w tx_hash tx_height) !! tx_hash = None ∧
     requested_merkle (final r) = requested_merkle self ∖ {[tx_hash]} ∧
     (tx_hash ∉ requested_merkle (final r)) ∧
     merkle_roots (final r) = merkle_roots self ∧
     blockchain (final r) = blockchain self) ∧
  (∀ e, fetch_proof net use_individual_header_proof = inl e →
        e ≠ UntrustedServerReturnedError true →
        raised r = Some e ∧ final r = self ∧ trace r = []).
Proof.
  intros Hw r. subst r. unfold _request_and_verify_single_proof. split.
  - intros ->. rewrite Hw. simpl. repeat split; try done.
    + apply lookup_delete_eq.
    + set_solver.
  - intros e -> Hne. rewrite Hw.
    destruct e as [[]| | | | |]; try done.
Qed.

(** C7, amended. With a wallet attached, when the Merkle proof request
    fails with the server's "not at that height" error (an
    [UntrustedServerReturnedError] whose original exception is an
    [RPCError]) and that failure is what the task sees (it awaits the
    Merkle request alone, or in individual-header mode a clean interface
    is ready and the header request does not fail first), the task calls
    [wallet.remove_unverified_tx], after which the transaction is not in
    the wallet's unverified set, discards the id from [requested_merkle],
    returns normally and leaves [merkle_roots] as it was.  Any other
    failure of the Merkle request that the task sees, and any other
    exception its [try] block ends with, propagates and changes
    nothing. *)
Theorem not_found_drops_transaction (net : Network) (self : SPV) (w : Wallet)
    (tx_hash : string) (tx_height : Z) (use_individual_header_proof : bool) :
  wallet self = Some w →
  let r := _request_and_verify_single_proof hash_merkle_root hash_header
           net self tx_hash tx_height use_individual_header_proof in
  (get_merkle_for_transaction net = inl (UntrustedServerReturnedError true) →
   merkle_request_decides net use_individual_header_proof →
     raised r = None ∧
     trace r = [ev_wallet_remove_unverified_tx tx_hash tx_height;
                ev_requested_merkle_discard tx_hash] ∧
     wallet (final r) = Some (remove_unverified_tx w tx_hash tx_height) ∧
     unverified_tx (remove_unverified_tx w tx_hash tx_height) !! tx_hash = None ∧
     requested_merkle (final r) = requested_merkle self ∖ {[tx_hash]} ∧
     (tx_hash ∉ requested_merkle (final r)) ∧
     merkle_roots (final r) = merkle_roots self ∧
     blockchain (final r) = blockchain self) ∧
  (∀ e, get_merkle_for_transaction net = inl e →
        merkle_request_decides net use_individual_header_proof →
        e ≠ UntrustedServerReturnedError true →
        raised r = Some e ∧ final r = self ∧ trace r = []) ∧
  (∀ e, fetch_proof net use_individual_header_proof = inl e →
        e ≠ UntrustedServerReturnedError true →
        raised r = Some e ∧ final r = self ∧ trace r = []).
Proof.
  intros Hw r.
  destruct (task_try_block_raises net self w tx_hash tx_height
              use_individual_header_proof Hw) as [Hdrop Hraise].
  split; [|split].
  - intros Hmerkle Hdecides. apply Hdrop. by apply fetch_proof_merkle_error.
  - intros e Hmerkle Hdecides. apply Hraise. by apply fetch_proof_merkle_error.
  - exact Hraise.
Qed.

Lemma commit_verified_cases (self : SPV) (tx_hash : string) (tx_height pos : Z)
    (hdr : option header) :
  let r := commit_verified hash_header self tx_hash tx_height pos hdr in
  (raised r = Some AttributeError ∧ final r = self ∧ trace r = [] ∧ hdr = None) ∨
  (∃ h, hdr = Some h ∧ raised r = None ∧
        blockchain (final r) = blockchain self ∧
        merkle_roots (final r) = <[tx_hash := h !! "merkle_root"]> (merkle_roots self) ∧
        requested_merkle (final r) = requested_merkle self ∖ {[tx_hash]} ∧
        match wallet self with
        | None =>
            wallet (final r) = None ∧
            trace r = [ev_merkle_roots_store tx_hash (h !! "merkle_root");
                       ev_requested_merkle_discard tx_hash]
        | Some w =>
            let info := {| height := tx_height; timestamp := h !! "timestamp";
                           txpos := pos; header_hash := hash_header h |} in
            wallet (final r) = Some (add_verified_tx w tx_hash info) ∧
            trace r = [ev_merkle_roots_store tx_hash (h !! "merkle_root");
                       ev_requested_merkle_discard tx_hash;
                       ev_build_tx_info info;
                       ev_wallet_add_verified_tx tx_hash info]
        end).
Proof.
  intros r. subst r. unfold commit_verified.
  destruct hdr as [h|]; [right|left; simpl; repeat split].
  exists h. simpl. destruct (wallet self) eqn:Hw; simpl; rewrite ?Hw; repeat split.
Qed.

(** A task that returns normally after the proof arrived went through
    the commit, in this order: store the root, discard the in-flight
    marker, build the record, hand it to the wallet. *)
Lemma task_commit_order (net : Network) (self : SPV) (w : Wallet)
    (tx_hash : string) (tx_height : Z) (use_individual_header_proof : bool)
    (reply : merkle_reply) (header_with_proof : option header) :
  wallet self = Some w →
  fetch_proof net use_individual_header_proof = inr (reply, header_with_proof) →
  let r := _request_and_verify_single_proof hash_merkle_root hash_header
           net self tx_hash tx_height use_individual_header_proof in
  raised r = None →
  ∃ root info,
    trace r = [ev_merkle_roots_store tx_hash root;
               ev_requested_merkle_discard tx_hash;
               ev_build_tx_info info;
               ev_wallet_add_verified_tx tx_hash info] ∧
    height info = block_height reply ∧
    txpos info = pos reply ∧
    merkle_roots (final r) = <[tx_hash := root]> (merkle_roots self) ∧
    requested_merkle (final r) = requested_merkle self ∖ {[tx_hash]} ∧
    wallet (final r) = Some (add_verified_tx w tx_hash info).
Proof.
  intros Hw Hfetch r. subst r. unfold _request_and_verify_single_proof.
  rewrite Hfetch.
  set (hdr := if use_individual_header_proof then header_with_proof else _).
  assert (∀ r0, r0 = commit_verified hash_header self tx_hash (block_height reply)
                       (pos reply) hdr →
                raised r0 = None →
                ∃ root info,
                  trace r0 = [ev_merkle_roots_store tx_hash root;
                              ev_requested_merkle_discard tx_hash;
                              ev_build_tx_info info;
                              ev_wallet_add_verified_tx tx_hash info] ∧
                  height info = block_height reply ∧
                  txpos info = pos reply ∧
                  merkle_roots (final r0) = <[tx_hash := root]> (merkle_roots self) ∧
                  requested_merkle (final r0) = requested_merkle self ∖ {[tx_hash]} ∧
                  wallet (final r0) = Some (add_verified_tx w tx_hash info)) as Hcommit.
  { intros r0 -> Hret.
    destruct (commit_verified_cases self tx_hash (block_height reply) (pos reply) hdr)
      as [(Hraise & _)|(h & _ & _ & _ & Hroots & Hreq & Hwallet)]; [congruence|].
    rewrite Hw in Hwallet. destruct Hwallet as [Hwal Htr].
    eexists _, _. split; [exact Htr|]. simpl. done. }
  destruct (verify_tx_is_in_block _ _ _ _ _ _) as [e|[]].
  - destruct (skipmerklecheck net); [by apply Hcommit|].
    rewrite Hw. simpl. discriminate.
  - by apply Hcommit.
Qed.

(** The task keeps a wallet attached and keeps every cached root backed
    by a verified record of the wallet. *)
Lemma task_keeps_roots_recorded (net : Network) (self : SPV)
    (tx_hash : string) (tx_height : Z) (use_individual_header_proof : bool) :
  roots_recorded self →
  roots_recorded
  (final (_request_and_verify_single_proof hash_merkle_root hash_header
            net self tx_hash tx_height use_individual_header_proof)).
Proof.
  intros (w & Hw & Hinv). unfold _request_and_verify_single_proof.
  destruct (fetch_proof net use_individual_header_proof) as [e|[reply hwp]].
  - rewrite Hw. destruct e as [[]| | | | |]; simpl; try (by exists w).
    eexists. split; [done|]. simpl. done.
  - set (hdr := if use_individual_header_proof then hwp else _).
    assert (roots_recorded
              (final (commit_verified hash_header self tx_hash (block_height reply)
                        (pos reply) hdr))) as Hcommit.
    { destruct (commit_verified_cases self tx_hash (block_height reply) (pos reply) hdr)
        as [(_ & -> & _)|(h & _ & _ & _ & Hroots & _ & Hwallet)]; [by exists w|].
      rewrite Hw in Hwallet. destruct Hwallet as [Hwal _].
      eexists. split; [exact Hwal|]. simpl. intros tx. rewrite Hroots.
      rewrite !dom_insert_L. specialize (Hinv tx). set_solver. }
    destruct (verify_tx_is_in_block _ _ _ _ _ _) as [e|[]]; [|done].
    destruct (skipmerklecheck net); [done|].
    rewrite Hw. simpl. by exists w.
Qed.

End TaskFacts.

(** C8, as the specification words it, fails on the order: in the run
    that verifies ["a"] the root is stored first and the record is built
    after it, so the trace does not have the record before the root. *)
Lemma commit_order_root_before_record :
  let r := _request_and_verify_single_proof Examples.toy_hash_merkle_root
             Examples.toy_hash_header Examples.net_found Examples.spv_two_dispatched
             "a" 100 false in
  raised r = None ∧
  merkle_roots (final r) !! "a" = Some (Some (PyStr "abc")) ∧
  ¬ record_then_root_then_wallet "a" (trace r).
Proof.
  split; [vm_compute; reflexivity|]. split; [vm_compute; reflexivity|].
  intros (i & j & k & info & root & info' & Hlt & Hi & Hj & Hk).
  destruct j as [|[|[|[|j]]]]; [lia|vm_compute in Hj; discriminate..].
Qed.

(** ** Reorg handler *)

Lemma elem_of_keys `{Countable K} {A} (m : gmap K A) (k : K) :
  k ∈ (map_to_list m).*1 ↔ is_Some (m !! k).
Proof.
  rewrite list_elem_of_fmap. split.
  - intros [[k' v] [-> Hin]]. apply elem_of_map_to_list in Hin. by exists v.
  - intros [v Hv]. exists (k, v). split; [done|]. by apply elem_of_map_to_list.
Qed.

(** What the modelled wallet does to one transaction when verifications
    above [above_height] are undone. *)
Lemma undo_verifications_returns (w : Wallet) (chain : Blockchain) (above_height : Z)
    (tx_hash : string) :
  tx_hash ∈ (undo_verifications w chain above_height).2 ↔
  ∃ info, verified_tx w !! tx_hash = Some info ∧ above_height < height info.
Proof.
  unfold undo_verifications. simpl. rewrite elem_of_keys. unfold is_Some.
  setoid_rewrite map_lookup_filter_Some. simpl. naive_solver.
Qed.

Lemma undo_verifications_wallet (w : Wallet) (chain : Blockchain) (above_height : Z)
    (tx_hash : string) (info : TxMinedInfo) :
  verified_tx w !! tx_hash = Some info →
  let w' := (undo_verifications w chain above_height).1 in
  (above_height < height info →
     verified_tx w' !! tx_hash = None ∧ unverified_tx w' !! tx_hash = Some (height info)) ∧
  (¬ above_height < height info → verified_tx w' !! tx_hash = Some info).
Proof.
  intros Hv. simpl. split; intros Hh.
  - split.
    + apply map_lookup_filter_None. right. intros info' Hv'. simpl. naive_solver.
    + apply lookup_union_Some_l. rewrite lookup_fmap.
      erewrite map_lookup_filter_Some_2; [done|exact Hv|done].
  - by apply map_lookup_filter_Some_2.
Qed.

Section ReorgFacts.

Variable get_height_of_last_common_block_with_chain : Blockchain → Blockchain → Z.


Lemma maybe_undo_unchanged (cur_chain : Blockchain) (self : SPV) :
  chain_id cur_chain = chain_id (blockchain self) →
  _maybe_undo_verifications get_height_of_last_common_block_with_chain cur_chain self = inr self.
Proof.
  intros Hid. unfold _maybe_undo_verifications.
  by rewrite bool_decide_eq_false_2 by (intros ?; done).
Qed.

Lemma maybe_undo_changed (cur_chain : Blockchain) (self : SPV) (w : Wallet) :
  wallet self = Some w →
  chain_id cur_chain ≠ chain_id (blockchain self) →
  let undone :=
    undo_verifications w cur_chain
      (get_height_of_last_common_block_with_chain cur_chain (blockchain self)) in
  ∃ self', _maybe_undo_verifications get_height_of_last_common_block_with_chain
            cur_chain self = inr self' ∧
           blockchain self' = cur_chain ∧
           wallet self' = Some undone.1 ∧
           merkle_roots self' = filter (λ kv, kv.1 ∉ undone.2) (merkle_roots self) ∧
           requested_merkle self' = requested_merkle self ∖ list_to_set undone.2.
Proof.
  intros Hw Hid undone. unfold _maybe_undo_verifications.
  rewrite bool_decide_eq_true_2 by done. simpl. rewrite Hw.
  eexists. split; [reflexivity|].
  match goal with |- context [foldl _ ?s ?l] =>
    destruct (foldl_remove_spv_proof_for_tx l s) as (Hw' & Hb & Hr & Hq) end.
  rewrite Hw', Hb, Hr, Hq. done.
Qed.

(** C9. With a wallet attached the handler does not fail.  When the
    best chain is the held one it changes nothing.  When it is another
    chain, with [H] the height of the last block common to both, every
    transaction the wallet held as verified at a height above [H] has
    afterwards no entry in [merkle_roots] and no marker in
    [requested_merkle], and is back in the wallet's unverified pool;
    the entries of all other transactions are as before, and the held
    chain is the new one. *)
Theorem maybe_undo_verifications_spec (cur_chain : Blockchain) (self : SPV) (w : Wallet) :
  wallet self = Some w →
  ∃ self', _maybe_undo_verifications get_height_of_last_common_block_with_chain
            cur_chain self = inr self' ∧
    (chain_id cur_chain = chain_id (blockchain self) → self' = self) ∧
    (chain_id cur_chain ≠ chain_id (blockchain self) →
     let H := get_height_of_last_common_block_with_chain cur_chain (blockchain self) in
     blockchain self' = cur_chain ∧
     (∀ tx_hash info,
        verified_tx w !! tx_hash = Some info → H < height info →
        (tx_hash ∉ dom (merkle_roots self')) ∧
        (tx_hash ∉ requested_merkle self') ∧
        ∃ w', wallet self' = Some w' ∧
              verified_tx w' !! tx_hash = None ∧
              unverified_tx w' !! tx_hash = Some (height info)) ∧
     (∀ tx_hash,
        (∀ info, verified_tx w !! tx_hash = Some info → height info ≤ H) →
        merkle_roots self' !! tx_hash = merkle_roots self !! tx_hash ∧
        (tx_hash ∈ requested_merkle self' ↔ tx_hash ∈ requested_merkle self))).
Proof.
  intros Hw.
  destruct (decide (chain_id cur_chain = chain_id (blockchain self))) as [Hid|Hid].
  - exists self. split; [by apply maybe_undo_unchanged|]. split; [done|]. intros ?. done.
  - destruct (maybe_undo_changed cur_chain self w Hw Hid)
      as (self' & Hrun & Hb & Hw' & Hr & Hq).
    exists self'. split; [done|]. split; [intros ?; done|]. intros _ H.
    split; [done|]. split.
    + intros tx info Hv Hh.
      assert (tx ∈ (undo_verifications w cur_chain H).2) as Hin.
      { apply undo_verifications_returns. eauto. }
      split; [|split].
      * rewrite Hr. apply not_elem_of_dom, map_lookup_filter_None. right.
        intros v _. simpl. tauto.
      * rewrite Hq. set_solver.
      * eexists. split; [exact Hw'|].
        by apply (undo_verifications_wallet w cur_chain H tx info Hv).
    + intros tx Hlow.
      assert (tx ∉ (undo_verifications w cur_chain H).2) as Hnot.
      { rewrite undo_verifications_returns. intros (info & Hv & Hh).
        specialize (Hlow info Hv). lia. }
      split.
      * rewrite Hr. destruct (merkle_roots self !! tx) as [v|] eqn:Hv.
        -- by apply map_lookup_filter_Some_2.
        -- apply map_lookup_filter_None. by left.
      * rewrite Hq. set_solver.
Qed.

End ReorgFacts.

Lemma maybe_undo_verifications_spec_witness :
  ∃ self', _maybe_undo_verifications Examples.common_95 Examples.chain_b
             Examples.spv_verified = inr self' ∧
           ("new" ∉ dom (merkle_roots self')) ∧
           ("new" ∉ requested_merkle self') ∧
           merkle_roots self' !! "old" = Some (Some (PyStr "r90")).
Proof.
  destruct (maybe_undo_verifications_spec Examples.common_95 Examples.chain_b
              Examples.spv_verified Examples.wallet_verified eq_refl)
    as (self' & Hrun & _ & Hchanged).
  destruct Hchanged as (_ & Hgone & Hkept); [vm_compute; discriminate|].
  exists self'. split; [exact Hrun|].
  destruct (Hgone "new" {| height := 100; timestamp := None; txpos := 1;
                           header_hash := "h100" |})
    as (Hroot & Hreq & _); [vm_compute; reflexivity|vm_compute; reflexivity|].
  split; [exact Hroot|]. split; [exact Hreq|].
  destruct (Hkept "old") as [-> _]; [|vm_compute; reflexivity].
  intros info Hv. vm_compute in Hv. injection Hv as <-. vm_compute. discriminate.
Defined.

(** ** The invariant of [merkle_roots] *)

Section SystemFacts.

Variable ceil_log2 : Z → N.
Variable max_checkpoint : Z.
Variable hash_merkle_root :
  list string → string → Z → MerkleVerificationFailure + string.
Variable hash_header : header → string.
Variable get_height_of_last_common_block_with_chain : Blockchain → Blockchain → Z.


Lemma step_keeps_roots_recorded (self self' : SPV) :
  step ceil_log2 max_checkpoint hash_merkle_root hash_header
  get_height_of_last_common_block_with_chain self self' →
roots_recorded self → roots_recorded self'.
Proof.
  intros Hstep (w & Hw & Hinv).
  destruct Hstep as [self self' spawned Hrun|net self tx h ind
                    |cur_chain self self' Hrun|self tx].
  - unfold _request_proofs in Hrun. rewrite Hw in Hrun. simplify_eq.
    apply request_proofs_loop_spec in Hrun as (Hw' & _ & Hr & _).
    exists w. rewrite Hr. split; [congruence|done].
  - apply task_keeps_roots_recorded. by exists w.
  - destruct (decide (chain_id cur_chain = chain_id (blockchain self))) as [Hid|Hid].
    + rewrite maybe_undo_unchanged in Hrun by done. simplify_eq. by exists w.
    + destruct (maybe_undo_changed get_height_of_last_common_block_with_chain
                  cur_chain self w Hw Hid) as (self'' & Hrun' & _ & Hw' & Hr & _).
      rewrite Hrun in Hrun'. simplify_eq.
      eexists. split; [exact Hw'|]. intros tx Htx.
      rewrite Hr in Htx. apply elem_of_dom in Htx as [root Hroot].
      apply map_lookup_filter_Some in Hroot as [Hroot Hkeep]. simpl in Hkeep.
      assert (tx ∈ dom (merkle_roots self)) as Hdom by (apply elem_of_dom; eauto).
      apply Hinv, elem_of_dom in Hdom as [info Hinfo].
      apply elem_of_dom. exists info.
      apply (undo_verifications_wallet w cur_chain _ tx info Hinfo).
      intros Hh. apply Hkeep.
      apply (undo_verifications_returns w cur_chain
               (get_height_of_last_common_block_with_chain cur_chain (blockchain self)) tx).
      eauto.
  - exists w. split; [done|]. intros tx' Htx'. apply Hinv.
    simpl in Htx'. rewrite dom_delete_L in Htx'. set_solver.
Qed.

(** C8, amended. In every state the job reaches from [_reset] with a
    wallet attached, each transaction id present in [merkle_roots] has a
    verified record in the wallet.  On the success path the two are
    updated together, in this order: store the root, discard the
    in-flight marker, build the verified record, commit it to the wallet
    (which discards the transaction from the wallet's unverified set). *)
Theorem verified_roots_invariant (w0 : Wallet) (chain0 : Blockchain) (self : SPV) :
  rtc (step ceil_log2 max_checkpoint hash_merkle_root hash_header
       get_height_of_last_common_block_with_chain) (_reset (Some w0) chain0) self →
  roots_recorded self ∧
  ∀ net tx_hash tx_height use_individual_header_proof reply header_with_proof,
    fetch_proof net use_individual_header_proof = inr (reply, header_with_proof) →
    let r := _request_and_verify_single_proof hash_merkle_root hash_header
               net self tx_hash tx_height use_individual_header_proof in
    raised r = None →
    ∃ root info,
      trace r = [ev_merkle_roots_store tx_hash root;
                 ev_requested_merkle_discard tx_hash;
                 ev_build_tx_info info;
                 ev_wallet_add_verified_tx tx_hash info] ∧
      merkle_roots (final r) !! tx_hash = Some root ∧
      ∃ w', wallet (final r) = Some w' ∧
            verified_tx w' !! tx_hash = Some info ∧
            unverified_tx w' !! tx_hash = None.
Proof.
  intros Hreach.
  assert (roots_recorded self) as Hinv.
  { revert self Hreach. apply rtc_ind_r.
    - exists w0. split; [done|]. simpl. intros tx. rewrite dom_empty_L. set_solver.
    - intros mid self _ Hstep IH. by eapply step_keeps_roots_recorded. }
  split; [exact Hinv|].
  intros net tx h ind reply hwp Hfetch r Hret.
  destruct Hinv as (w & Hw & _).
  destruct (task_commit_order hash_merkle_root hash_header net self w tx h ind
              reply hwp Hw Hfetch Hret)
    as (root & info & Htr & _ & _ & Hroots & _ & Hwallet).
  exists root, info. split; [exact Htr|]. split.
  - fold r in Hroots. rewrite Hroots. apply lookup_insert_eq.
  - eexists. split; [exact Hwallet|]. simpl. split.
    + apply lookup_insert_eq.
    + apply lookup_delete_eq.
Qed.

End SystemFacts.

Lemma verified_roots_invariant_witness :
  roots_recorded Examples.spv_two_a_verified.
Proof.
  apply (verified_roots_invariant Examples.ceil_log2_table Examples.mc2 Examples.toy_hash_merkle_root
           Examples.toy_hash_header Examples.common_95
           Examples.wallet_two Examples.chain_a Examples.spv_two_a_verified).
  apply (rtc_l _ _ Examples.spv_two_dispatched).
  - apply (step_request_proofs _ _ _ _ _ Examples.spv_two Examples.spv_two_dispatched
             (request_proofs_over Examples.ceil_log2_table Examples.mc2
                (get_unverified_txs Examples.wallet_two) Examples.spv_two).2).
    unfold _request_proofs, Examples.spv_two_dispatched. simpl.
    by destruct (request_proofs_over _ _ _).
  - apply rtc_once. apply step_verify.
Defined.

Lemma not_found_drops_transaction_witness :
  let r := _request_and_verify_single_proof Examples.toy_hash_merkle_root
             Examples.toy_hash_header Examples.net_not_found
             Examples.spv_two_dispatched "a" 100 false in
  raised r = None ∧
  ("a" ∉ requested_merkle (final r)) ∧
  merkle_roots (final r) = merkle_roots Examples.spv_two_dispatched.
Proof.
  destruct (not_found_drops_transaction Examples.toy_hash_merkle_root
              Examples.toy_hash_header Examples.net_not_found
              Examples.spv_two_dispatched Examples.wallet_two "a" 100 false)
    as [Hnot_found _]; [vm_compute; reflexivity|].
  destruct Hnot_found as (Hret & _ & _ & _ & _ & Hreq & Hroots & _);
    [reflexivity|left; reflexivity|].
  split; [exact Hret|]. split; [exact Hreq|exact Hroots].
Defined.

(** C7, as the specification words it, fails in individual-header mode:
    the Merkle request for ["b"] is answered with "not at that height"
    and a wallet is attached, but the header request fails first, so the
    task ends with that transport error and removes nothing: ["b"] keeps
    its place in the wallet's unverified set and its in-flight marker. *)
Lemma not_found_lost_to_header_failure :
  let self := Examples.spv_two_dispatched in
  let r := _request_and_verify_single_proof Examples.toy_hash_merkle_root
             Examples.toy_hash_header MoreExamples.net_not_found_header_fails_first
             self "b" 7 true in
  get_merkle_for_transaction MoreExamples.net_not_found_header_fails_first
    = inl (UntrustedServerReturnedError true) ∧
  wallet self = Some Examples.wallet_two ∧
  raised r = Some TransportError ∧
  final r = self ∧
  (unverified_tx <$> wallet (final r)) = Some {[ "a" := 100; "b" := 7 ]} ∧
  "b" ∈ requested_merkle (final r).
Proof.
  split; [reflexivity|]. split; [vm_compute; reflexivity|].
  split; [reflexivity|]. split; [reflexivity|].
  split; [vm_compute; reflexivity|].
  apply (bool_decide_unpack _). vm_compute. exact I.
Qed.

Example not_found_end_to_end :
  let r := _request_and_verify_single_proof Examples.toy_hash_merkle_root
             Examples.toy_hash_header Examples.net_not_found
             Examples.spv_two_dispatched "a" 100 false in
  unverified_tx <$> wallet (final r) = Some {[ "b" := 7 ]} ∧
  requested_merkle (final r) = {[ "b" ]} ∧
  merkle_roots (final r) = ∅.
Proof. vm_compute. done. Qed.

(** * Further properties of the code *)

(** ** Merkle proof verifier, all cases *)

Section VerifierCases.

Variable hash_merkle_root :
  list string → string → Z → MerkleVerificationFailure + string.

Lemma verify_ok_cases (tx_hash : string) (merkle_branch : list string)
    (leaf_pos_in_tree : Z) (block_header : option header) (block_height : Z) :
  verify_tx_is_in_block hash_merkle_root tx_hash merkle_branch leaf_pos_in_tree
    block_header block_height = inr tt
  ↔ ∃ hdr calc,
      block_header = Some hdr ∧ hdr ≠ ∅ ∧
      (length merkle_branch ≤ 30)%nat ∧
      hash_merkle_root merkle_branch tx_hash leaf_pos_in_tree = inr calc ∧
      hdr !! "merkle_root" = Some (PyStr calc).
Proof.
  unfold verify_tx_is_in_block, truthy. split.
  - destruct block_header as [hdr|]; simpl; [|discriminate].
    case_bool_decide as Hne; simpl; [|discriminate].
    case_bool_decide as Hlen; [discriminate|].
    destruct (hash_merkle_root _ _ _) as [e|calc]; [discriminate|].
    case_bool_decide as Hroot; [discriminate|]. intros _.
    exists hdr, calc.
    split; [done|]. split; [done|]. split; [lia|]. split; [done|].
    destruct (decide (hdr !! "merkle_root" = Some (PyStr calc))); [done|tauto].
  - intros (hdr & calc & -> & Hne & Hlen & -> & Hroot). simpl.
    rewrite (bool_decide_eq_true_2 _ Hne). simpl.
    rewrite bool_decide_eq_false_2 by lia.
    rewrite bool_decide_eq_false_2; [done|]. intros Hbad. by apply Hbad.
Qed.

(** X1. The verifier succeeds exactly when a non-empty header is given,
    the branch has at most 30 entries, [hash_merkle_root] returns a root,
    and the header's ['merkle_root'] is that root. *)
Theorem verify_ok_iff (tx_hash : string) (merkle_branch : list string)
    (leaf_pos_in_tree : Z) (block_header : option header) (block_height : Z) :
  verify_tx_is_in_block hash_merkle_root tx_hash merkle_branch leaf_pos_in_tree
    block_header block_height = inr tt
  ↔ ∃ hdr calc,
      block_header = Some hdr ∧ hdr ≠ ∅ ∧
      (length merkle_branch ≤ 30)%nat ∧
      hash_merkle_root merkle_branch tx_hash leaf_pos_in_tree = inr calc ∧
      hdr !! "merkle_root" = Some (PyStr calc).
Proof. apply verify_ok_cases. Qed.

(** X2. With a non-empty header and a branch of at most 30 entries (30
    itself included), a failure of [hash_merkle_root] is passed on as it
    is, and a recomputed root that differs from the header's
    ['merkle_root'], or a header without that key, is a
    [MerkleRootMismatch] carrying both values. *)
Theorem verify_failures (tx_hash : string) (merkle_branch : list string)
    (leaf_pos_in_tree : Z) (hdr : header) (block_height : Z) :
  hdr ≠ ∅ →
  (length merkle_branch ≤ 30)%nat →
  let result := verify_tx_is_in_block hash_merkle_root tx_hash merkle_branch
                  leaf_pos_in_tree (Some hdr) block_height in
  (∀ e, hash_merkle_root merkle_branch tx_hash leaf_pos_in_tree = inl e →
        result = inl e) ∧
  (∀ calc, hash_merkle_root merkle_branch tx_hash leaf_pos_in_tree = inr calc →
           hdr !! "merkle_root" ≠ Some (PyStr calc) →
           result = inl (MerkleRootMismatch tx_hash (hdr !! "merkle_root") calc)).
Proof.
  intros Hne Hlen result. subst result. unfold verify_tx_is_in_block, truthy.
  rewrite (bool_decide_eq_true_2 _ Hne). simpl.
  rewrite bool_decide_eq_false_2 by lia.
  split.
  - by intros e ->.
  - intros calc -> Hroot. by rewrite (bool_decide_eq_true_2 _ Hroot).
Qed.

End VerifierCases.

Lemma verify_failures_witness :
  verify_tx_is_in_block Examples.toy_hash_merkle_root "a" ["x"; "y"] 0
    (Some Examples.header_abc) 100
  = inl (MerkleRootMismatch "a" (Some (PyStr "abc")) "axy").
Proof.
  destruct (verify_failures Examples.toy_hash_merkle_root "a" ["x"; "y"] 0
              Examples.header_abc 100) as [_ Hmismatch].
  - apply (bool_decide_unpack _). vm_compute. exact I.
  - simpl. lia.
  - apply (Hmismatch "axy"); [reflexivity|].
    apply (bool_decide_unpack _). vm_compute. exact I.
Defined.

(** ** Cost model, bounds *)

(** X3. Whatever the (non-negative) maximum checkpoint height, a count
    of at most one header never makes the chunk cheaper, and a count of
    more than 1440 headers always does. *)
Theorem is_chunk_cheaper_extremes (ceil_log2 : Z → N) (max_checkpoint n : Z) :
  0 ≤ max_checkpoint →
  (n ≤ 1 → is_chunk_cheaper ceil_log2 max_checkpoint n = false) ∧
  (1440 < n → is_chunk_cheaper ceil_log2 max_checkpoint n = true).
Proof.
  intros _. pose proof (branch_len_nonneg ceil_log2 max_checkpoint) as Hb.
  unfold is_chunk_cheaper, chunk_len, individual_headers_len, root_len, bare_header_len.
  split; intros Hn.
  - apply Z.ltb_ge. nia.
  - apply Z.ltb_lt. nia.
Qed.

Lemma is_chunk_cheaper_extremes_witness :
  is_chunk_cheaper Examples.ceil_log2_table Examples.mc2 1 = false ∧ is_chunk_cheaper Examples.ceil_log2_table Examples.mc2 1441 = true.
Proof.
  destruct (is_chunk_cheaper_extremes Examples.ceil_log2_table Examples.mc2 1) as [Hlow _]; [vm_compute; discriminate|].
  destruct (is_chunk_cheaper_extremes Examples.ceil_log2_table Examples.mc2 1441) as [_ Hhigh];
    [vm_compute; discriminate|].
  split; [apply Hlow; lia|apply Hhigh; lia].
Defined.

(** X4. The count the dispatcher feeds the cost model, for a height that
    occurs in the unverified dict, is at least 1 and at most 2016: it
    counts distinct heights of one retarget period. *)
Theorem headers_in_chunk_period_bounds (unverified : list (string * Z))
    (tx_hash : string) (tx_height : Z) :
  (tx_hash, tx_height) ∈ unverified →
  1 ≤ headers_in_chunk_period unverified tx_height ≤ 2016.
Proof.
  intros Hin. unfold headers_in_chunk_period.
  set (S := list_to_set _ : gset Z).
  assert (tx_height ∈ S) as Hmem.
  { apply elem_of_list_to_set, list_elem_of_filter. split; [done|].
    apply list_elem_of_fmap. by exists (tx_hash, tx_height). }
  assert (S ⊆ list_to_set (seqZ (2016 * (tx_height / 2016)) 2016)) as Hsub.
  { intros h Hh. apply elem_of_list_to_set, list_elem_of_filter in Hh as [Hh _].
    apply elem_of_list_to_set, elem_of_seqZ.
    rewrite <- Hh. pose proof (Z.mul_div_le h 2016). pose proof (Z.mod_pos_bound h 2016).
    pose proof (Z.div_mod h 2016). lia. }
  apply subseteq_size in Hsub.
  rewrite size_list_to_set in Hsub by apply NoDup_seqZ.
  rewrite length_seqZ in Hsub.
  assert (size S ≠ 0%nat) as Hpos.
  { apply size_non_empty_iff. intros Hempty. apply (not_elem_of_empty (C:=gset Z) tx_height).
    by rewrite <- Hempty. }
  lia.
Qed.

Lemma headers_in_chunk_period_bounds_witness :
  1 ≤ headers_in_chunk_period Examples.crowded_unverified Examples.mc1 ≤ 2016.
Proof.
  apply (headers_in_chunk_period_bounds Examples.crowded_unverified "late" Examples.mc1).
  apply elem_of_app. right. apply list_elem_of_singleton. reflexivity.
Defined.

(** ** Request dispatcher, what it spawns and what it leaves *)

Section DispatcherMore.

Variable ceil_log2 : Z → N.
Variable max_checkpoint : Z.

Lemma elem_of_dispatched (spawned : list task) (tx_hash : string) :
  tx_hash ∈ dispatched spawned ↔
  ∃ h ind, request_and_verify_single_proof tx_hash h ind ∈ spawned.
Proof.
  unfold dispatched. rewrite list_elem_of_omap. split.
  - intros [[h b|tx h ind] [Hin Heq]]; [done|]. simplify_eq. eauto.
  - intros (h & ind & Hin). eexists. split; [exact Hin|done].
Qed.

Lemma spawn_justified_weaken lh unverified (items items' : list (string * Z))
    (self self' : SPV) (t : task) :
  items ⊆ items' →
  blockchain self = blockchain self' →
  merkle_roots self = merkle_roots self' →
  requested_merkle self' ⊆ requested_merkle self →
  spawn_justified ceil_log2 max_checkpoint lh unverified items self t →
  spawn_justified ceil_log2 max_checkpoint lh unverified items' self' t.
Proof.
  intros Hitems Hb Hr Hq. unfold spawn_justified. rewrite Hb, Hr.
  destruct t as [h b|tx h ind].
  - intros (? & [tx ?] & ?). split; [done|]. split; [exists tx; by apply Hitems|done].
  - intros (? & ? & ? & ?). split; [by apply Hitems|]. split; [done|].
    split; [set_solver|done].
Qed.

Lemma request_proofs_body_justified lh unverified self tx_hash tx_height self' spawned :
  request_proofs_body ceil_log2 max_checkpoint lh unverified self tx_hash tx_height
    = (self', spawned) →
  Forall (spawn_justified ceil_log2 max_checkpoint lh unverified [(tx_hash, tx_height)] self) spawned.
Proof.
  unfold request_proofs_body. intros H.
  case_bool_decide as Hseen; [simplify_eq; constructor|].
  case_bool_decide as Hheight; [simplify_eq; constructor|].
  assert ((tx_hash ∉ requested_merkle self) ∧ (tx_hash ∉ dom (merkle_roots self)))
    as [? ?] by tauto.
  assert ((tx_hash, tx_height) ∈ [(tx_hash, tx_height)]) by left.
  destruct (read_header (blockchain self) tx_height) as [hdr|] eqn:Hhdr.
  - simplify_eq. repeat constructor; simpl; rewrite ?Hhdr; try done; try lia.
  - case_bool_decide; [|simplify_eq; constructor].
    destruct (is_chunk_cheaper _ _) eqn:Hcheap; simplify_eq;
      repeat constructor; simpl; try done; try lia; try by eexists.
Qed.

Lemma request_proofs_loop_justified lh unverified items self :
  Forall (spawn_justified ceil_log2 max_checkpoint lh unverified items self)
    (request_proofs_loop ceil_log2 max_checkpoint lh unverified items self).2.
Proof.
  revert self. induction items as [|[tx_hash tx_height] rest IH]; intros self; simpl.
  { constructor. }
  destruct (request_proofs_body _ _ _ _ _ _) as [self1 sp1] eqn:Hbody.
  specialize (IH self1).
  destruct (request_proofs_loop _ _ _ _ _) as [self2 sp2] eqn:Hloop.
  simpl in *. apply Forall_app. split.
  - apply request_proofs_body_justified in Hbody.
    eapply Forall_impl; [exact Hbody|]. intros t.
    apply spawn_justified_weaken; [set_solver|done..].
  - apply request_proofs_body_cases in Hbody as (_ & Hb & Hr & Hq).
    eapply Forall_impl; [exact IH|]. intros t.
    apply spawn_justified_weaken; [set_solver|done|done|].
    destruct Hq as [[_ ->]|(_ & _ & _ & ->)]; set_solver.
Qed.

(** X5. Everything a run of the dispatcher spawns is justified by the
    state it started from: a chunk request (always with
    [can_return_early]) only for a height of the dict that is positive,
    at most the local height, below the maximum checkpoint, without a
    stored header and with the chunk cheaper; a verification task only
    for an unmarked entry of the dict with its own height in that range,
    without individual-header mode when the header is stored, and with it
    only when the header is missing, the height is below the maximum
    checkpoint and the chunk is not cheaper. *)
Theorem request_proofs_sound (unverified : list (string * Z)) (self : SPV) :
  Forall (spawn_justified ceil_log2 max_checkpoint (chain_height (blockchain self))
            unverified unverified self)
    (request_proofs_over ceil_log2 max_checkpoint unverified self).2.
Proof. apply request_proofs_loop_justified. Qed.

Lemma request_proofs_loop_marks lh unverified items self tx_hash tx_height :
  (tx_hash, tx_height) ∈ items →
  0 < tx_height ≤ lh →
  (is_Some (read_header (blockchain self) tx_height) ∨
   (tx_height < max_checkpoint ∧
    is_chunk_cheaper ceil_log2 max_checkpoint (headers_in_chunk_period unverified tx_height) = false)) →
  tx_hash ∈ requested_merkle (request_proofs_loop ceil_log2 max_checkpoint lh unverified items self).1
  ∨ tx_hash ∈ dom (merkle_roots self).
Proof.
  intros Hin Hheight. revert self.
  induction items as [|[tx0 h0] rest IH]; intros self Hwant.
  { by apply elem_of_nil in Hin. }
  simpl.
  destruct (request_proofs_body _ _ _ _ _ _) as [self1 sp1] eqn:Hbody.
  destruct (request_proofs_loop _ _ _ _ _) as [self2 sp2] eqn:Hloop.
  simpl.
  pose proof Hloop as Hspec.
  apply request_proofs_loop_spec in Hspec as (_ & _ & _ & Hq2 & _ & _).
  apply elem_of_cons in Hin as [Heq|Hin].
  - injection Heq as Ht Hh. subst tx0 h0. unfold request_proofs_body in Hbody.
    case_bool_decide as Hseen.
    { simplify_eq. destruct Hseen; [left; rewrite Hq2; set_solver|by right]. }
    rewrite bool_decide_eq_false_2 in Hbody by lia.
    left. rewrite Hq2.
    destruct (read_header (blockchain self) tx_height) as [hdr|] eqn:Hhdr.
    + simplify_eq. simpl. set_solver.
    + destruct Hwant as [[? [=]]|[Hmc Hcheap]].
      rewrite bool_decide_eq_true_2 in Hbody by done.
      rewrite Hcheap in Hbody. simplify_eq. simpl. set_solver.
  - apply request_proofs_body_cases in Hbody as (_ & Hb & Hr & _).
    specialize (IH Hin self1). rewrite Hb, Hr, Hloop in IH. by apply IH.
Qed.

(** X6. After a run of the dispatcher, every entry of the unverified
    dict whose height is positive and at most the local height, and whose
    header is stored (or is missing below the maximum checkpoint while the
    chunk is not cheaper), has an in-flight marker or a verified root:
    no such transaction is passed over. *)
Theorem request_proofs_marks_eligible (unverified : list (string * Z)) (self : SPV)
    (tx_hash : string) (tx_height : Z) :
  (tx_hash, tx_height) ∈ unverified →
  0 < tx_height ≤ chain_height (blockchain self) →
  (is_Some (read_header (blockchain self) tx_height) ∨
   (tx_height < max_checkpoint ∧
    is_chunk_cheaper ceil_log2 max_checkpoint (headers_in_chunk_period unverified tx_height) = false)) →
  let self' := (request_proofs_over ceil_log2 max_checkpoint unverified self).1 in
  tx_hash ∈ requested_merkle self' ∨ tx_hash ∈ dom (merkle_roots self').
Proof.
  intros Hin Hheight Hwant self'. subst self'.
  destruct (request_proofs_over ceil_log2 max_checkpoint unverified self) as [self1 sp1] eqn:Hrun.
  pose proof Hrun as Hspec.
  apply request_proofs_loop_spec in Hspec as (_ & _ & Hr & _).
  simpl. rewrite Hr.
  pose proof (request_proofs_loop_marks (chain_height (blockchain self)) unverified
                unverified self tx_hash tx_height Hin Hheight Hwant) as Hmark.
  unfold request_proofs_over in Hrun. rewrite Hrun in Hmark. exact Hmark.
Qed.

Lemma request_proofs_loop_dispatches lh unverified items self tx_hash tx_height
    (use_individual_header_proof : bool) :
  NoDup items.*1 →
  (tx_hash, tx_height) ∈ items →
  (tx_hash ∉ requested_merkle self) →
  (tx_hash ∉ dom (merkle_roots self)) →
  0 < tx_height ≤ lh →
  (if use_individual_header_proof
   then read_header (blockchain self) tx_height = None ∧
        tx_height < max_checkpoint ∧
        is_chunk_cheaper ceil_log2 max_checkpoint (headers_in_chunk_period unverified tx_height) = false
   else is_Some (read_header (blockchain self) tx_height)) →
  request_and_verify_single_proof tx_hash tx_height use_individual_header_proof
    ∈ (request_proofs_loop ceil_log2 max_checkpoint lh unverified items self).2.
Proof.
  intros Hnd Hin Hnq Hnr Hheight Hmode. revert self Hnq Hnr Hmode.
  induction items as [|[tx0 h0] rest IH]; intros self Hnq Hnr Hmode.
  { by apply elem_of_nil in Hin. }
  simpl. simpl in Hnd. apply NoDup_cons in Hnd as [Hfresh Hnd].
  destruct (request_proofs_body _ _ _ _ _ _) as [self1 sp1] eqn:Hbody.
  destruct (request_proofs_loop _ _ _ _ _) as [self2 sp2] eqn:Hloop.
  simpl. apply elem_of_app.
  apply elem_of_cons in Hin as [Heq|Hin].
  - left. injection Heq as Ht Hh. subst tx0 h0. unfold request_proofs_body in Hbody.
    rewrite bool_decide_eq_false_2 in Hbody by tauto.
    rewrite bool_decide_eq_false_2 in Hbody by lia.
    destruct use_individual_header_proof.
    + destruct Hmode as (Hhdr & Hmc & Hcheap).
      rewrite Hhdr, Hcheap in Hbody. rewrite bool_decide_eq_true_2 in Hbody by done.
      simplify_eq. left.
    + destruct Hmode as [hdr Hhdr]. rewrite Hhdr in Hbody. simplify_eq. left.
  - right.
    assert (tx0 ≠ tx_hash) as Hne.
    { intros ->. apply Hfresh. apply list_elem_of_fmap. by exists (tx_hash, tx_height). }
    apply request_proofs_body_cases in Hbody as (_ & Hb1 & Hr1 & Hcases).
    assert (tx_hash ∉ requested_merkle self1) as Hq1.
    { destruct Hcases as [[_ ->]|(_ & _ & _ & ->)]; set_solver. }
    specialize (IH Hnd Hin self1 Hq1). rewrite Hr1, Hb1, Hloop in IH. simpl in IH.
    by apply IH.
Qed.

(** X7. An unmarked entry of the unverified dict whose height is
    positive and at most the local height gets its verification task in
    this run, with the height of the dict: without individual-header mode
    when its header is stored, and in individual-header mode when the
    header is missing below the maximum checkpoint and the chunk is not
    cheaper; in that second case no chunk is requested for its height. *)
Theorem request_proofs_dispatches (unverified : list (string * Z)) (self : SPV)
    (tx_hash : string) (tx_height : Z) (use_individual_header_proof : bool) :
  NoDup unverified.*1 →
  (tx_hash, tx_height) ∈ unverified →
  (tx_hash ∉ requested_merkle self) →
  (tx_hash ∉ dom (merkle_roots self)) →
  0 < tx_height ≤ chain_height (blockchain self) →
  (if use_individual_header_proof
   then read_header (blockchain self) tx_height = None ∧
        tx_height < max_checkpoint ∧
        is_chunk_cheaper ceil_log2 max_checkpoint (headers_in_chunk_period unverified tx_height) = false
   else is_Some (read_header (blockchain self) tx_height)) →
  let run := request_proofs_over ceil_log2 max_checkpoint unverified self in
  request_and_verify_single_proof tx_hash tx_height use_individual_header_proof ∈ run.2 ∧
  tx_hash ∈ requested_merkle run.1 ∧
  ∀ can_return_early, request_chunk tx_height can_return_early ∉ run.2.
Proof.
  intros Hnd Hin Hnq Hnr Hheight Hmode run.
  assert (request_and_verify_single_proof tx_hash tx_height use_individual_header_proof
            ∈ run.2) as Hspawn by by apply request_proofs_loop_dispatches.
  split; [exact Hspawn|]. split.
  - subst run. destruct (request_proofs_over _ _ _) as [self1 sp1] eqn:Hrun.
    apply request_proofs_loop_spec in Hrun as (_ & _ & _ & Hq & _ & _).
    simpl in *. rewrite Hq. apply elem_of_union_l, elem_of_list_to_set.
    apply elem_of_dispatched. eauto.
  - intros early Hchunk.
    pose proof (request_proofs_loop_justified (chain_height (blockchain self))
                  unverified unverified self) as Hsound.
    rewrite Forall_forall in Hsound. apply Hsound in Hchunk.
    destruct Hchunk as (_ & _ & _ & _ & Hnone & Hcheap).
    destruct use_individual_header_proof.
    + destruct Hmode as (_ & _ & Hnot). congruence.
    + destruct Hmode as [hdr Hhdr]. congruence.
Qed.

(** X8. Run again on the state it has just left, over the same
    unverified dict, the dispatcher spawns no verification task at all. *)
Theorem request_proofs_second_run_idle (unverified : list (string * Z)) (self : SPV) :
  let run1 := request_proofs_over ceil_log2 max_checkpoint unverified self in
  dispatched (request_proofs_over ceil_log2 max_checkpoint unverified run1.1).2 = [].
Proof.
  intros run1.
  destruct (dispatched _) as [|tx rest] eqn:Hd; [done|exfalso].
  assert (tx ∈ dispatched (request_proofs_over ceil_log2 max_checkpoint unverified run1.1).2)
    as Hin by (rewrite Hd; left).
  apply elem_of_dispatched in Hin as (h & ind & Hin).
  pose proof (request_proofs_loop_justified (chain_height (blockchain run1.1))
                unverified unverified run1.1) as Hsound.
  rewrite Forall_forall in Hsound. apply Hsound in Hin.
  destruct Hin as (Hitem & Hheight & Hnq & Hnr & Hmode).
  subst run1.
  destruct (request_proofs_over ceil_log2 max_checkpoint unverified self) as [self1 sp1] eqn:Hrun.
  pose proof Hrun as Hspec.
  apply request_proofs_loop_spec in Hspec as (_ & Hb & Hr & _).
  simpl in *. rewrite Hb in Hheight, Hmode.
  destruct (request_proofs_loop_marks (chain_height (blockchain self)) unverified
              unverified self tx h Hitem Hheight) as [Hmark|Hroot].
  - destruct ind; [right; tauto|by left].
  - unfold request_proofs_over in Hrun. rewrite Hrun in Hmark. done.
  - rewrite Hr in Hnr. done.
Qed.

(** X9. After a run of the dispatcher the job is up to date exactly when
    it was up to date before and the run spawned no verification task. *)
Theorem is_up_to_date_after_request_proofs (unverified : list (string * Z)) (self : SPV) :
  let run := request_proofs_over ceil_log2 max_checkpoint unverified self in
  is_up_to_date run.1 = true ↔ is_up_to_date self = true ∧ dispatched run.2 = [].
Proof.
  intros run. subst run.
  destruct (request_proofs_over ceil_log2 max_checkpoint unverified self) as [self1 sp1] eqn:Hrun.
  apply request_proofs_loop_spec in Hrun as (_ & _ & _ & Hq & _ & _).
  simpl. unfold is_up_to_date. rewrite !bool_decide_eq_true, Hq. split.
  - intros Hempty. split; [set_solver|].
    destruct (dispatched sp1) as [|tx rest]; [done|]. set_solver.
  - intros [-> ->]. set_solver.
Qed.

End DispatcherMore.

(** ** Verification task, the remaining paths *)

Section TaskMore.

Variable hash_merkle_root :
  list string → string → Z → MerkleVerificationFailure + string.
Variable hash_header : header → string.

(** The task after a proof has arrived, in terms of [task_header]. *)
Lemma task_after_fetch (net : Network) (self : SPV) (tx_hash : string) (tx_height : Z)
    (use_individual_header_proof : bool) (reply : merkle_reply)
    (header_with_proof : option header) :
  fetch_proof net use_individual_header_proof = inr (reply, header_with_proof) →
  let hdr := task_header net use_individual_header_proof header_with_proof
               (block_height reply) in
  _request_and_verify_single_proof hash_merkle_root hash_header
    net self tx_hash tx_height use_individual_header_proof
  = match verify_tx_is_in_block hash_merkle_root tx_hash (merkle reply) (pos reply)
            hdr (block_height reply) with
    | inl e =>
        if skipmerklecheck net
        then commit_verified hash_header self tx_hash (block_height reply) (pos reply) hdr
        else match wallet self with
             | None => raise self (MerkleFailure e) []
             | Some _ => raise self (GracefulDisconnect e) []
             end
    | inr _ => commit_verified hash_header self tx_hash (block_height reply) (pos reply) hdr
    end.
Proof. intros Hfetch. unfold _request_and_verify_single_proof. by rewrite Hfetch. Qed.

(** How a run can leave the job: untouched, with the transaction dropped
    as not found, or through the commit. *)
Lemma task_effect (net : Network) (self : SPV) (tx_hash : string) (tx_height : Z)
    (use_individual_header_proof : bool) :
  let r := _request_and_verify_single_proof hash_merkle_root hash_header
             net self tx_hash tx_height use_individual_header_proof in
  (final r = self ∧ is_Some (raised r)) ∨
  (∃ w, wallet self = Some w ∧ raised r = None ∧
        final r = set_requested_merkle
                    (set_wallet self (Some (remove_unverified_tx w tx_hash tx_height)))
                    (requested_merkle self ∖ {[tx_hash]})) ∨
  (∃ hdr h' pos', raised r = None ∧
        r = commit_verified hash_header self tx_hash h' pos' (Some hdr)).
Proof.
  intros r. subst r.
  destruct (fetch_proof net use_individual_header_proof) as [e|[reply hwp]] eqn:Hfetch.
  - unfold _request_and_verify_single_proof. rewrite Hfetch.
    destruct (wallet self) as [w|] eqn:Hw.
    + destruct e as [[]| | | | |]; try (left; split; [done|by eexists]).
      right. left. exists w. done.
    + left. destruct e as [[]| | | | |]; split; done || by eexists.
  - rewrite (task_after_fetch net self tx_hash tx_height _ reply hwp Hfetch).
    set (hdr := task_header _ _ _ _).
    assert (∀ r0, r0 = commit_verified hash_header self tx_hash (block_height reply)
                         (pos reply) hdr →
                  (final r0 = self ∧ is_Some (raised r0)) ∨
                  (∃ hdr h' pos', raised r0 = None ∧
                     r0 = commit_verified hash_header self tx_hash h' pos' (Some hdr)))
      as Hcommit.
    { intros r0 ->.
      destruct (commit_verified_cases hash_header self tx_hash (block_height reply)
                  (pos reply) hdr) as [(Hr & Hf & _)|(h & Hh & Hr & _)].
      - left. split; [done|]. rewrite Hr. by eexists.
      - right. exists h, (block_height reply), (pos reply). by rewrite <- Hh. }
    destruct (verify_tx_is_in_block _ _ _ _ _ _) as [e|[]].
    + destruct (skipmerklecheck net).
      * destruct (Hcommit _ eq_refl) as [?|?]; [by left|by right; right].
      * left. destruct (wallet self); split; done || by eexists.
    + destruct (Hcommit _ eq_refl) as [?|?]; [by left|by right; right].
Qed.

(** The root a checked run stores, in terms of [task_header]. *)
Lemma task_checked_root (net : Network) (self : SPV)
    (tx_hash : string) (tx_height : Z) (use_individual_header_proof : bool)
    (reply : merkle_reply) (header_with_proof : option header) :
  skipmerklecheck net = false →
  fetch_proof net use_individual_header_proof = inr (reply, header_with_proof) →
  let r := _request_and_verify_single_proof hash_merkle_root hash_header
             net self tx_hash tx_height use_individual_header_proof in
  raised r = None →
  ∃ hdr calc,
    task_header net use_individual_header_proof header_with_proof (block_height reply)
      = Some hdr ∧
    hdr ≠ ∅ ∧
    (length (merkle reply) ≤ 30)%nat ∧
    hash_merkle_root (merkle reply) tx_hash (pos reply) = inr calc ∧
    hdr !! "merkle_root" = Some (PyStr calc) ∧
    merkle_roots (final r) !! tx_hash = Some (Some (PyStr calc)) ∧
    (tx_hash ∉ requested_merkle (final r)).
Proof.
  intros Hskip Hfetch r. subst r.
  rewrite (task_after_fetch net self tx_hash tx_height _ reply header_with_proof Hfetch).
  rewrite Hskip.
  destruct (verify_tx_is_in_block _ _ _ _ _ _) as [e|[]] eqn:Hverify.
  { destruct (wallet self); simpl; discriminate. }
  apply verify_ok_cases in Hverify as (hdr & calc & Hhdr & Hne & Hlen & Hcalc & Hroot).
  intros _. exists hdr, calc. rewrite Hhdr.
  destruct (commit_verified_cases hash_header self tx_hash (block_height reply)
              (pos reply) (Some hdr)) as [(_ & _ & _ & [=])|(h & Hh & _ & _ & Hr & Hq & _)].
  injection Hh as <-.
  repeat split; try done.
  - rewrite Hr, Hroot. apply lookup_insert_eq.
  - rewrite Hq. set_solver.
Qed.

Lemma fetch_proof_success (net : Network) (use_individual_header_proof : bool)
    (reply : merkle_reply) (header_reply : header) (proof_was_provided : bool) :
  get_merkle_for_transaction net = inr reply →
  (use_individual_header_proof = true →
   get_interface_for_stream_id net = Some (inr (header_reply, proof_was_provided))) →
  fetch_proof net use_individual_header_proof
  = inr (reply, if use_individual_header_proof then Some header_reply else None).
Proof.
  intros Hmerkle Hheader. unfold fetch_proof. rewrite Hmerkle.
  destruct use_individual_header_proof; [|done]. by rewrite Hheader.
Qed.

(** X10. With [skipmerklecheck] off, when the Merkle request succeeds
    (and, in individual-header mode, the header request too) and the task
    returns normally, it has stored for its transaction exactly the root
    that [hash_merkle_root] recomputes from the server's branch and
    position; that root is the ['merkle_root'] of the non-empty header the
    task checked against, and the branch had at most 30 entries.  That
    header is, without individual-header mode, the best chain's header at
    the height the server reported (read again under the lock when it is
    absent at first), and in individual-header mode the header the header
    request returned, whatever height the server reported. *)
Theorem task_stores_recomputed_root (net : Network) (self : SPV)
    (tx_hash : string) (tx_height : Z) (use_individual_header_proof : bool)
    (reply : merkle_reply) (header_reply : header) (proof_was_provided : bool) :
  skipmerklecheck net = false →
  get_merkle_for_transaction net = inr reply →
  (use_individual_header_proof = true →
   get_interface_for_stream_id net = Some (inr (header_reply, proof_was_provided))) →
  let r := _request_and_verify_single_proof hash_merkle_root hash_header
             net self tx_hash tx_height use_individual_header_proof in
  raised r = None →
  ∃ hdr calc,
    (if use_individual_header_proof
     then hdr = header_reply
     else read_header (network_blockchain net) (block_height reply) = Some hdr ∨
          (read_header (network_blockchain net) (block_height reply) = None ∧
           read_header (network_blockchain_under_bhi_lock net) (block_height reply)
             = Some hdr)) ∧
    hdr ≠ ∅ ∧
    (length (merkle reply) ≤ 30)%nat ∧
    hash_merkle_root (merkle reply) tx_hash (pos reply) = inr calc ∧
    hdr !! "merkle_root" = Some (PyStr calc) ∧
    merkle_roots (final r) !! tx_hash = Some (Some (PyStr calc)) ∧
    (tx_hash ∉ requested_merkle (final r)).
Proof.
  intros Hskip Hmerkle Hheader r Hret.
  pose proof (fetch_proof_success net use_individual_header_proof reply header_reply
                proof_was_provided Hmerkle Hheader) as Hfetch.
  destruct (task_checked_root net self tx_hash tx_height use_individual_header_proof
              reply _ Hskip Hfetch Hret) as (hdr & calc & Hhdr & Hrest).
  exists hdr, calc. split; [|exact Hrest].
  unfold task_header in Hhdr. destruct use_individual_header_proof.
  - by injection Hhdr as ->.
  - destruct (read_header (network_blockchain net) (block_height reply)) as [h|] eqn:Hread.
    + left. exact Hhdr.
    + right. by split.
Qed.

(** X11. With [skipmerklecheck] off, a failed Merkle check never reaches
    the commit: with a wallet attached the task ends with
    [GracefulDisconnect] wrapping the failure, without one it re-raises
    the failure itself, and in both cases the job is left as it was, so
    the in-flight marker stays. *)
Theorem task_failed_check (net : Network) (self : SPV)
    (tx_hash : string) (tx_height : Z) (use_individual_header_proof : bool)
    (reply : merkle_reply) (header_with_proof : option header)
    (e : MerkleVerificationFailure) :
  skipmerklecheck net = false →
  fetch_proof net use_individual_header_proof = inr (reply, header_with_proof) →
  verify_tx_is_in_block hash_merkle_root tx_hash (merkle reply) (pos reply)
    (task_header net use_individual_header_proof header_with_proof (block_height reply))
    (block_height reply) = inl e →
  let r := _request_and_verify_single_proof hash_merkle_root hash_header
             net self tx_hash tx_height use_individual_header_proof in
  final r = self ∧ trace r = [] ∧
  raised r = Some (match wallet self with
                   | Some _ => GracefulDisconnect e
                   | None => MerkleFailure e
                   end).
Proof.
  intros Hskip Hfetch Hverify r. subst r.
  rewrite (task_after_fetch net self tx_hash tx_height _ reply header_with_proof Hfetch).
  rewrite Hverify, Hskip. by destruct (wallet self).
Qed.

(** X12. With [skipmerklecheck] on, the outcome does not depend on the
    Merkle check.  When a header was resolved the task commits: it stores
    that header's ['merkle_root'] and discards the marker, even if the
    check failed.  When no header was resolved the task ends with an
    [AttributeError] and leaves the job as it was. *)
Theorem task_skipmerklecheck (net : Network) (self : SPV)
    (tx_hash : string) (tx_height : Z) (use_individual_header_proof : bool)
    (reply : merkle_reply) (header_with_proof : option header) :
  skipmerklecheck net = true →
  fetch_proof net use_individual_header_proof = inr (reply, header_with_proof) →
  let r := _request_and_verify_single_proof hash_merkle_root hash_header
             net self tx_hash tx_height use_individual_header_proof in
  match task_header net use_individual_header_proof header_with_proof
          (block_height reply) with
  | Some hdr =>
      raised r = None ∧
      merkle_roots (final r) = <[tx_hash := hdr !! "merkle_root"]> (merkle_roots self) ∧
      requested_merkle (final r) = requested_merkle self ∖ {[tx_hash]}
  | None =>
      raised r = Some AttributeError ∧ final r = self ∧ trace r = []
  end.
Proof.
  intros Hskip Hfetch r. subst r.
  rewrite (task_after_fetch net self tx_hash tx_height _ reply header_with_proof Hfetch).
  rewrite Hskip.
  set (hdr := task_header _ _ _ _).
  assert (match hdr with
          | Some h =>
              let r0 := commit_verified hash_header self tx_hash (block_height reply)
                          (pos reply) hdr in
              raised r0 = None ∧
              merkle_roots (final r0) = <[tx_hash := h !! "merkle_root"]> (merkle_roots self) ∧
              requested_merkle (final r0) = requested_merkle self ∖ {[tx_hash]}
          | None =>
              let r0 := commit_verified hash_header self tx_hash (block_height reply)
                          (pos reply) hdr in
              raised r0 = Some AttributeError ∧ final r0 = self ∧ trace r0 = []
          end) as Hcommit.
  { destruct (commit_verified_cases hash_header self tx_hash (block_height reply)
                (pos reply) hdr) as [(? & ? & ? & ->)|(h & -> & ? & _ & ? & ? & _)]; done. }
  destruct (verify_tx_is_in_block _ _ _ _ _ _) as [e|[]]; by destruct hdr.
Qed.

(** X13. A run of the task touches only its own transaction: for every
    other id the entry in [merkle_roots], the marker in
    [requested_merkle] and the wallet's verified and unverified entries
    are as before; the run adds no marker, keeps the held chain, and
    neither attaches nor detaches a wallet. *)
Theorem task_frame (net : Network) (self : SPV) (tx_hash : string) (tx_height : Z)
    (use_individual_header_proof : bool) (other : string) :
  other ≠ tx_hash →
  let r := _request_and_verify_single_proof hash_merkle_root hash_header
             net self tx_hash tx_height use_individual_header_proof in
  merkle_roots (final r) !! other = merkle_roots self !! other ∧
  (other ∈ requested_merkle (final r) ↔ other ∈ requested_merkle self) ∧
  requested_merkle (final r) ⊆ requested_merkle self ∧
  blockchain (final r) = blockchain self ∧
  match wallet self, wallet (final r) with
  | Some w, Some w' =>
      verified_tx w' !! other = verified_tx w !! other ∧
      unverified_tx w' !! other = unverified_tx w !! other
  | None, None => True
  | _, _ => False
  end.
Proof.
  intros Hne. cbv zeta.
  generalize (task_effect net self tx_hash tx_height use_individual_header_proof).
  cbv zeta. generalize (_request_and_verify_single_proof hash_merkle_root hash_header
                          net self tx_hash tx_height use_individual_header_proof) as r.
  intros r [[Hsame _]|[(w & Hw & _ & Hfinal)|(hdr & h' & pos' & _ & Hcommit)]].
  - rewrite Hsame. repeat split; try done. by destruct (wallet self).
  - rewrite Hfinal, Hw. simpl. repeat split; try set_solver.
    by rewrite lookup_delete_ne.
  - rewrite Hcommit.
    destruct (commit_verified_cases hash_header self tx_hash h' pos' (Some hdr))
      as [(_ & _ & _ & [=])|(h & Hh & _ & Hb & Hr & Hq & Hwallet)].
    rewrite Hr, Hq, Hb. rewrite lookup_insert_ne by done.
    repeat split; try done; try set_solver.
    destruct (wallet self) as [w|]; destruct Hwallet as [-> _]; [|done]. simpl.
    rewrite lookup_insert_ne, lookup_delete_ne by done. done.
Qed.

(** X14. Without a wallet every failure of the request propagates,
    the server's "not at that height" error included, and leaves the job
    as it was; a run that returns normally stores the root and discards
    the marker, builds no record and attaches no wallet. *)
Theorem task_without_wallet (net : Network) (self : SPV)
    (tx_hash : string) (tx_height : Z) (use_individual_header_proof : bool) :
  wallet self = None →
  let r := _request_and_verify_single_proof hash_merkle_root hash_header
             net self tx_hash tx_height use_individual_header_proof in
  (∀ e, fetch_proof net use_individual_header_proof = inl e →
        raised r = Some e ∧ final r = self ∧ trace r = []) ∧
  (raised r = None →
   ∃ root, trace r = [ev_merkle_roots_store tx_hash root;
                      ev_requested_merkle_discard tx_hash] ∧
           merkle_roots (final r) = <[tx_hash := root]> (merkle_roots self) ∧
           requested_merkle (final r) = requested_merkle self ∖ {[tx_hash]} ∧
           wallet (final r) = None).
Proof.
  intros Hw r. split.
  - intros e Hfetch. subst r. unfold _request_and_verify_single_proof.
    rewrite Hfetch, Hw. by destruct e as [[]| | | | |].
  - subst r.
    generalize (task_effect net self tx_hash tx_height use_individual_header_proof).
    cbv zeta. generalize (_request_and_verify_single_proof hash_merkle_root hash_header
                            net self tx_hash tx_height use_individual_header_proof) as r.
    intros r [[_ [e He]]|[(w & Hw' & _)|(hdr & h' & pos' & _ & Hcommit)]] Hret.
    + congruence.
    + congruence.
    + rewrite Hcommit.
      destruct (commit_verified_cases hash_header self tx_hash h' pos' (Some hdr))
        as [(_ & _ & _ & [=])|(h & Hh & _ & _ & Hr & Hq & Hwallet)].
      rewrite Hw in Hwallet. destruct Hwallet as [Hnone Htrace].
      eexists. split; [exact Htrace|]. done.
Qed.

(** X15. In individual-header mode the task never consults the local
    chain: with no clean interface it ends with the "No clean interface"
    exception whatever the Merkle request would return and leaves the job
    as it was, and otherwise its whole result is the same for any two
    networks that differ only in the chains they hold. *)
Theorem task_individual_mode (net net' : Network) (self : SPV)
    (tx_hash : string) (tx_height : Z) :
  let r := _request_and_verify_single_proof hash_merkle_root hash_header
             net self tx_hash tx_height true in
  (get_interface_for_stream_id net = None →
   raised r = Some NoCleanInterface ∧ final r = self ∧ trace r = []) ∧
  (get_merkle_for_transaction net' = get_merkle_for_transaction net →
   get_interface_for_stream_id net' = get_interface_for_stream_id net →
   header_getter_fails_first net' = header_getter_fails_first net →
   skipmerklecheck net' = skipmerklecheck net →
   _request_and_verify_single_proof hash_merkle_root hash_header
     net' self tx_hash tx_height true = r).
Proof.
  intros r. subst r. unfold _request_and_verify_single_proof, fetch_proof. split.
  - intros ->. by destruct (wallet self).
  - intros -> -> -> ->. done.
Qed.

End TaskMore.

(** ** Reorg handler and job loop *)

Section LoopMore.

Variable ceil_log2 : Z → N.
Variable max_checkpoint : Z.
Variable hash_merkle_root :
  list string → string → Z → MerkleVerificationFailure + string.
Variable hash_header : header → string.
Variable get_height_of_last_common_block_with_chain : Blockchain → Blockchain → Z.

(** X16. The reorg handler only removes: after it, the ids in
    [merkle_roots] and in [requested_merkle] are among those that were
    there before; and run a second time against the same best chain it
    changes nothing more. *)
Theorem maybe_undo_only_removes (cur_chain : Blockchain) (self self' : SPV) :
  _maybe_undo_verifications get_height_of_last_common_block_with_chain
    cur_chain self = inr self' →
  dom (merkle_roots self') ⊆ dom (merkle_roots self) ∧
  requested_merkle self' ⊆ requested_merkle self ∧
  _maybe_undo_verifications get_height_of_last_common_block_with_chain
    cur_chain self' = inr self'.
Proof.
  intros Hrun.
  destruct (decide (chain_id cur_chain = chain_id (blockchain self))) as [Hid|Hid].
  - rewrite maybe_undo_unchanged in Hrun by done. simplify_eq.
    split; [done|]. split; [done|]. by apply maybe_undo_unchanged.
  - destruct (wallet self) as [w|] eqn:Hw.
    + destruct (maybe_undo_changed get_height_of_last_common_block_with_chain
                  cur_chain self w Hw Hid) as (self'' & Hrun' & Hb & _ & Hr & Hq).
      rewrite Hrun in Hrun'. injection Hrun' as <-.
      split; [|split].
      * rewrite Hr. apply dom_filter_subseteq.
      * rewrite Hq. set_solver.
      * apply maybe_undo_unchanged. by rewrite Hb.
    + unfold _maybe_undo_verifications in Hrun.
      rewrite bool_decide_eq_true_2 in Hrun by done. simpl in Hrun.
      rewrite Hw in Hrun. discriminate.
Qed.

Lemma step_keeps_stores_disjoint (self self' : SPV) :
  step ceil_log2 max_checkpoint hash_merkle_root hash_header
    get_height_of_last_common_block_with_chain self self' →
  stores_disjoint self → stores_disjoint self'.
Proof.
  unfold stores_disjoint. intros Hstep Hinv.
  destruct Hstep as [self self' spawned Hrun|net self tx h ind
                    |cur_chain self self' Hrun|self tx].
  - unfold _request_proofs in Hrun. destruct (wallet self); [|done]. simplify_eq.
    apply request_proofs_loop_spec in Hrun as (_ & _ & Hr & Hq & _ & Hnew).
    intros tx'. rewrite Hr, Hq. intros [Hd|Hold]%elem_of_union.
    + apply elem_of_list_to_set in Hd. by apply Hnew in Hd as (_ & _ & ?).
    + by apply Hinv.
  - generalize (task_effect hash_merkle_root hash_header net self tx h ind).
    cbv zeta. generalize (_request_and_verify_single_proof hash_merkle_root hash_header
                            net self tx h ind) as r.
    intros r [[-> _]|[(w & _ & _ & ->)|(hdr & h' & pos' & _ & ->)]].
    + done.
    + simpl. intros tx' Htx'. apply Hinv. set_solver.
    + destruct (commit_verified_cases hash_header self tx h' pos' (Some hdr))
        as [(_ & _ & _ & [=])|(h0 & _ & _ & _ & Hr & Hq & _)].
      intros tx'. rewrite Hr, Hq, dom_insert_L. intros Htx'.
      specialize (Hinv tx'). set_solver.
  - intros tx Htx.
    destruct (decide (chain_id cur_chain = chain_id (blockchain self))) as [Hid|Hid].
    { rewrite maybe_undo_unchanged in Hrun by done. simplify_eq. by apply Hinv. }
    destruct (wallet self) as [w|] eqn:Hw.
    + destruct (maybe_undo_changed get_height_of_last_common_block_with_chain
                  cur_chain self w Hw Hid) as (self'' & Hrun' & _ & _ & Hr & Hq).
      rewrite Hrun in Hrun'. simplify_eq. rewrite Hq in Htx. rewrite Hr.
      intros Hdom. apply (Hinv tx); [set_solver|].
      by apply (dom_filter_subseteq _ (merkle_roots self)) in Hdom.
    + unfold _maybe_undo_verifications in Hrun.
      rewrite bool_decide_eq_true_2 in Hrun by done. simpl in Hrun.
      rewrite Hw in Hrun. discriminate.
  - intros tx'. simpl. rewrite dom_delete_L. specialize (Hinv tx'). set_solver.
Qed.

(** X17. In every state the job reaches from [_reset], with or without
    a wallet, by dispatcher runs, verification tasks, reorg handling and
    [remove_spv_proof_for_tx], no transaction id is in [requested_merkle]
    and in [merkle_roots] at once. *)
Theorem stores_disjoint_invariant (w0 : option Wallet) (chain0 : Blockchain) (self : SPV) :
  rtc (step ceil_log2 max_checkpoint hash_merkle_root hash_header
         get_height_of_last_common_block_with_chain) (_reset w0 chain0) self →
  stores_disjoint self.
Proof.
  revert self. apply rtc_ind_r.
  - intros tx. simpl. set_solver.
  - intros mid self _ Hstep IH. by eapply step_keeps_stores_disjoint.
Qed.

Lemma main_cycle_with_wallet (cur_chain : Blockchain) (self : SPV) (w : Wallet) :
  wallet self = Some w →
  ∃ self1 w1,
    _maybe_undo_verifications get_height_of_last_common_block_with_chain
      cur_chain self = inr self1 ∧
    wallet self1 = Some w1 ∧
    chain_id (blockchain self1) = chain_id cur_chain ∧
    main_cycle ceil_log2 max_checkpoint get_height_of_last_common_block_with_chain cur_chain self
    = inr (request_proofs_over ceil_log2 max_checkpoint (get_unverified_txs w1) self1).
Proof.
  intros Hw. unfold main_cycle. rewrite Hw.
  destruct (decide (chain_id cur_chain = chain_id (blockchain self))) as [Hid|Hid].
  - rewrite maybe_undo_unchanged by done. exists self, w.
    unfold _request_proofs. rewrite Hw. done.
  - destruct (maybe_undo_changed get_height_of_last_common_block_with_chain
                cur_chain self w Hw Hid) as (self1 & -> & Hb & Hw1 & _).
    eexists self1, _. unfold _request_proofs. rewrite Hw1, Hb. done.
Qed.

(** X18. One pass of the loop of [main] never raises.  Without a wallet
    it changes nothing and spawns nothing.  With a wallet it is the reorg
    handler followed by the dispatcher: afterwards the held chain is the
    current best chain, a wallet is still attached, and both the
    disjointness of the two stores and the backing of every cached root by
    a verified record of the wallet carry over from the state before. *)
Theorem main_cycle_spec (cur_chain : Blockchain) (self : SPV) :
  ∃ self' spawned,
    main_cycle ceil_log2 max_checkpoint get_height_of_last_common_block_with_chain cur_chain self
    = inr (self', spawned) ∧
    (wallet self = None → self' = self ∧ spawned = []) ∧
    (is_Some (wallet self) →
     is_Some (wallet self') ∧
     chain_id (blockchain self') = chain_id cur_chain ∧
     rtc (step ceil_log2 max_checkpoint hash_merkle_root hash_header
            get_height_of_last_common_block_with_chain) self self' ∧
     (stores_disjoint self → stores_disjoint self') ∧
     (roots_recorded self → roots_recorded self')).
Proof.
  destruct (wallet self) as [w|] eqn:Hw.
  - destruct (main_cycle_with_wallet cur_chain self w Hw)
      as (self1 & w1 & Hundo & Hw1 & Hid & ->).
    destruct (request_proofs_over ceil_log2 max_checkpoint (get_unverified_txs w1) self1)
      as [self2 sp2] eqn:Hrun.
    exists self2, sp2. split; [done|]. split; [done|]. intros _.
    assert (step ceil_log2 max_checkpoint hash_merkle_root hash_header
              get_height_of_last_common_block_with_chain self self1) as Hstep1
      by by apply (step_maybe_undo _ _ _ _ _ cur_chain).
    assert (step ceil_log2 max_checkpoint hash_merkle_root hash_header
              get_height_of_last_common_block_with_chain self1 self2) as Hstep2.
    { apply (step_request_proofs _ _ _ _ _ self1 self2 sp2).
      unfold _request_proofs. by rewrite Hw1, Hrun. }
    apply request_proofs_loop_spec in Hrun as (Hw2 & Hb2 & _).
    split; [rewrite Hw2, Hw1; by eexists|]. split; [by rewrite Hb2|].
    split; [by apply (rtc_l _ _ self1); [|apply rtc_once]|].
    split; intros Hinv.
    + eapply step_keeps_stores_disjoint; [exact Hstep2|].
      eapply step_keeps_stores_disjoint; [exact Hstep1|done].
    + eapply step_keeps_roots_recorded; [exact Hstep2|].
      eapply step_keeps_roots_recorded; [exact Hstep1|done].
  - exists self, []. unfold main_cycle. rewrite Hw.
    split; [done|]. split; [done|]. by intros [? [=]].
Qed.

(** X19. Re-verification after a reorg starts in the same pass: when
    the best chain has changed, a transaction the wallet held as verified
    above the last common height, whose old height is positive and at
    most the new chain's height and whose header the new chain stores, is
    given a verification task at that height, without individual-header
    mode, by the dispatcher run of this very pass; afterwards it has an
    in-flight marker and no cached root. *)
Theorem main_cycle_redispatches (cur_chain : Blockchain) (self : SPV) (w : Wallet)
    (tx_hash : string) (info : TxMinedInfo) :
  wallet self = Some w →
  chain_id cur_chain ≠ chain_id (blockchain self) →
  verified_tx w !! tx_hash = Some info →
  get_height_of_last_common_block_with_chain cur_chain (blockchain self) < height info →
  0 < height info ≤ chain_height cur_chain →
  is_Some (read_header cur_chain (height info)) →
  ∃ self' spawned,
    main_cycle ceil_log2 max_checkpoint get_height_of_last_common_block_with_chain cur_chain self
    = inr (self', spawned) ∧
    request_and_verify_single_proof tx_hash (height info) false ∈ spawned ∧
    tx_hash ∈ requested_merkle self' ∧
    (tx_hash ∉ dom (merkle_roots self')).
Proof.
  intros Hw Hid Hv Habove Hheight Hhdr.
  destruct (maybe_undo_changed get_height_of_last_common_block_with_chain
              cur_chain self w Hw Hid) as (self1 & Hundo & Hb & Hw1 & Hr & Hq).
  set (H := get_height_of_last_common_block_with_chain cur_chain (blockchain self)) in *.
  assert (tx_hash ∈ (undo_verifications w cur_chain H).2) as Hret
    by (apply undo_verifications_returns; eauto).
  destruct (undo_verifications_wallet w cur_chain H tx_hash info Hv) as [Hundone _].
  destruct (Hundone Habove) as [_ Hunv].
  assert (tx_hash ∉ requested_merkle self1) as Hnq by (rewrite Hq; set_solver).
  assert (tx_hash ∉ dom (merkle_roots self1)) as Hnr.
  { rewrite Hr. apply not_elem_of_dom, map_lookup_filter_None. right.
    intros v _. simpl. tauto. }
  set (w1 := (undo_verifications w cur_chain H).1) in *.
  destruct (request_proofs_over ceil_log2 max_checkpoint (get_unverified_txs w1) self1)
    as [self2 sp2] eqn:Hrun.
  exists self2, sp2.
  assert (main_cycle ceil_log2 max_checkpoint get_height_of_last_common_block_with_chain
            cur_chain self = inr (self2, sp2)) as Hmain.
  { unfold main_cycle. rewrite Hw, Hundo. unfold _request_proofs. by rewrite Hw1, Hrun. }
  assert (request_and_verify_single_proof tx_hash (height info) false ∈ sp2) as Hspawn.
  { pose proof (request_proofs_loop_dispatches ceil_log2 max_checkpoint
                  (chain_height (blockchain self1)) (get_unverified_txs w1)
                  (get_unverified_txs w1) self1 tx_hash (height info) false) as Hd.
    unfold request_proofs_over in Hrun. rewrite Hrun in Hd. apply Hd.
    - apply NoDup_fst_map_to_list.
    - by apply elem_of_map_to_list.
    - done.
    - done.
    - by rewrite Hb.
    - by rewrite Hb. }
  apply request_proofs_loop_spec in Hrun as (_ & _ & Hr2 & Hq2 & _ & _).
  split; [done|]. split; [done|]. split; [|by rewrite Hr2].
  rewrite Hq2. apply elem_of_union_l, elem_of_list_to_set, elem_of_dispatched. eauto.
Qed.

End LoopMore.

(** ** Instances on concrete data *)

Lemma request_proofs_marks_eligible_witness :
  let self' := (request_proofs_over Examples.ceil_log2_table Examples.mc2
                  (get_unverified_txs Examples.wallet_two) Examples.spv_two).1 in
  "a" ∈ requested_merkle self' ∨ "a" ∈ dom (merkle_roots self').
Proof.
  apply (request_proofs_marks_eligible Examples.ceil_log2_table Examples.mc2
           (get_unverified_txs Examples.wallet_two) Examples.spv_two "a" 100).
  - apply (bool_decide_unpack _). vm_compute. exact I.
  - vm_compute. split; [reflexivity|discriminate].
  - left. eexists. reflexivity.
Defined.

Lemma request_proofs_dispatches_witness :
  let run := request_proofs_over Examples.ceil_log2_table Examples.mc2
               (get_unverified_txs Examples.wallet_two) Examples.spv_two in
  request_and_verify_single_proof "b" 7 true ∈ run.2 ∧
  "b" ∈ requested_merkle run.1 ∧
  ∀ can_return_early, request_chunk 7 can_return_early ∉ run.2.
Proof.
  apply (request_proofs_dispatches Examples.ceil_log2_table Examples.mc2
           (get_unverified_txs Examples.wallet_two) Examples.spv_two "b" 7 true).
  - apply (bool_decide_unpack _). vm_compute. exact I.
  - apply (bool_decide_unpack _). vm_compute. exact I.
  - apply (bool_decide_unpack _). vm_compute. exact I.
  - apply (bool_decide_unpack _). vm_compute. exact I.
  - vm_compute. split; [reflexivity|discriminate].
  - split; [reflexivity|]. split; vm_compute; reflexivity.
Defined.

Lemma task_stores_recomputed_root_witness :
  ∃ hdr calc,
    (read_header Examples.chain_a 100 = Some hdr ∨
     (read_header Examples.chain_a 100 = None ∧
      read_header Examples.chain_a 100 = Some hdr)) ∧
    hdr ≠ ∅ ∧
    (length ["b"; "c"] ≤ 30)%nat ∧
    Examples.toy_hash_merkle_root ["b"; "c"] "a" 0 = inr calc ∧
    hdr !! "merkle_root" = Some (PyStr calc) ∧
    merkle_roots Examples.spv_two_a_verified !! "a" = Some (Some (PyStr calc)) ∧
    ("a" ∉ requested_merkle Examples.spv_two_a_verified).
Proof.
  apply (task_stores_recomputed_root Examples.toy_hash_merkle_root Examples.toy_hash_header
           Examples.net_found Examples.spv_two_dispatched "a" 100 false
           {| block_height := 100; pos := 0; merkle := ["b"; "c"] |} ∅ false).
  - reflexivity.
  - reflexivity.
  - discriminate.
  - vm_compute. reflexivity.
Defined.

Lemma task_failed_check_witness :
  let r := _request_and_verify_single_proof Examples.toy_hash_merkle_root
             Examples.toy_hash_header MoreExamples.net_wrong_branch
             Examples.spv_two_dispatched "a" 100 false in
  final r = Examples.spv_two_dispatched ∧ trace r = [] ∧
  raised r = Some (GracefulDisconnect
                     (MerkleRootMismatch "a" (Some (PyStr "abc")) "axy")).
Proof.
  apply (task_failed_check Examples.toy_hash_merkle_root Examples.toy_hash_header
           MoreExamples.net_wrong_branch Examples.spv_two_dispatched "a" 100 false
           {| block_height := 100; pos := 0; merkle := ["x"; "y"] |} None
           (MerkleRootMismatch "a" (Some (PyStr "abc")) "axy")).
  - reflexivity.
  - reflexivity.
  - vm_compute. reflexivity.
Defined.

Lemma task_skipmerklecheck_witness :
  let r := _request_and_verify_single_proof Examples.toy_hash_merkle_root
             Examples.toy_hash_header MoreExamples.net_no_header_skip
             Examples.spv_two_dispatched "a" 100 false in
  raised r = Some AttributeError ∧ final r = Examples.spv_two_dispatched ∧ trace r = [].
Proof.
  apply (task_skipmerklecheck Examples.toy_hash_merkle_root Examples.toy_hash_header
           MoreExamples.net_no_header_skip Examples.spv_two_dispatched "a" 100 false
           {| block_height := 50; pos := 0; merkle := ["b"; "c"] |} None);
    reflexivity.
Defined.

(** With [skipmerklecheck] on, a branch that does not match the header is
    committed all the same. *)
Example skipmerklecheck_commits_mismatch :
  let r := _request_and_verify_single_proof Examples.toy_hash_merkle_root
             Examples.toy_hash_header MoreExamples.net_wrong_branch_skip
             Examples.spv_two_dispatched "a" 100 false in
  raised r = None ∧
  merkle_roots (final r) !! "a" = Some (Some (PyStr "abc")) ∧
  Examples.toy_hash_merkle_root ["x"; "y"] "a" 0 = inr "axy".
Proof. vm_compute. done. Qed.

Lemma task_frame_witness :
  let r := _request_and_verify_single_proof Examples.toy_hash_merkle_root
             Examples.toy_hash_header Examples.net_found
             Examples.spv_two_dispatched "a" 100 false in
  "b" ∈ requested_merkle (final r).
Proof.
  destruct (task_frame Examples.toy_hash_merkle_root Examples.toy_hash_header
              Examples.net_found Examples.spv_two_dispatched "a" 100 false "b")
    as (_ & Hmarker & _); [discriminate|].
  apply Hmarker. apply (bool_decide_unpack _). vm_compute. exact I.
Defined.

Lemma task_without_wallet_witness :
  let r := _request_and_verify_single_proof Examples.toy_hash_merkle_root
             Examples.toy_hash_header Examples.net_not_found
             MoreExamples.spv_no_wallet "a" 100 false in
  raised r = Some (UntrustedServerReturnedError true) ∧
  final r = MoreExamples.spv_no_wallet ∧ trace r = [].
Proof.
  destruct (task_without_wallet Examples.toy_hash_merkle_root Examples.toy_hash_header
              Examples.net_not_found MoreExamples.spv_no_wallet "a" 100 false eq_refl)
    as [Hfail _].
  apply Hfail. reflexivity.
Defined.

Lemma task_individual_mode_witness :
  let r := _request_and_verify_single_proof Examples.toy_hash_merkle_root
             Examples.toy_hash_header Examples.net_found
             Examples.spv_two_dispatched "b" 7 true in
  raised r = Some NoCleanInterface ∧ final r = Examples.spv_two_dispatched ∧ trace r = [].
Proof.
  destruct (task_individual_mode Examples.toy_hash_merkle_root Examples.toy_hash_header
              Examples.net_found Examples.net_found Examples.spv_two_dispatched "b" 7)
    as [Hnone _].
  apply Hnone. reflexivity.
Defined.

Lemma maybe_undo_only_removes_witness :
  ∃ self', _maybe_undo_verifications Examples.common_95 Examples.chain_b
             Examples.spv_verified = inr self' ∧
           dom (merkle_roots self') ⊆ dom (merkle_roots Examples.spv_verified) ∧
           _maybe_undo_verifications Examples.common_95 Examples.chain_b self' = inr self'.
Proof.
  eexists. split; [reflexivity|].
  destruct (maybe_undo_only_removes Examples.common_95 Examples.chain_b
              Examples.spv_verified _ eq_refl) as (Hroots & _ & Hagain).
  split; [exact Hroots|exact Hagain].
Defined.

Lemma stores_disjoint_invariant_witness :
  stores_disjoint Examples.spv_two_a_verified.
Proof.
  apply (stores_disjoint_invariant Examples.ceil_log2_table Examples.mc2 Examples.toy_hash_merkle_root
           Examples.toy_hash_header Examples.common_95
           (Some Examples.wallet_two) Examples.chain_a Examples.spv_two_a_verified).
  apply (rtc_l _ _ Examples.spv_two_dispatched).
  - apply (step_request_proofs _ _ _ _ _ Examples.spv_two Examples.spv_two_dispatched
             (request_proofs_over Examples.ceil_log2_table Examples.mc2
                (get_unverified_txs Examples.wallet_two) Examples.spv_two).2).
    unfold _request_proofs, Examples.spv_two_dispatched. simpl.
    by destruct (request_proofs_over _ _ _).
  - apply rtc_once. apply step_verify.
Defined.

Lemma main_cycle_spec_witness :
  ∃ self' spawned,
    main_cycle Examples.ceil_log2_table Examples.mc2 Examples.common_95 Examples.chain_b Examples.spv_verified
    = inr (self', spawned) ∧
    chain_id (blockchain self') = chain_id Examples.chain_b.
Proof.
  destruct (main_cycle_spec Examples.ceil_log2_table Examples.mc2 Examples.toy_hash_merkle_root
              Examples.toy_hash_header Examples.common_95 Examples.chain_b
              Examples.spv_verified) as (self' & spawned & Hrun & _ & Hwallet).
  exists self', spawned. split; [exact Hrun|].
  destruct Hwallet as (_ & Hchain & _); [eexists; reflexivity|exact Hchain].
Defined.

Lemma main_cycle_redispatches_witness :
  ∃ self' spawned,
    main_cycle Examples.ceil_log2_table Examples.mc2 Examples.common_95 MoreExamples.chain_c Examples.spv_verified
    = inr (self', spawned) ∧
    request_and_verify_single_proof "new" 100 false ∈ spawned ∧
    "new" ∈ requested_merkle self' ∧
    ("new" ∉ dom (merkle_roots self')).
Proof.
  apply (main_cycle_redispatches Examples.ceil_log2_table Examples.mc2 Examples.common_95 MoreExamples.chain_c
           Examples.spv_verified Examples.wallet_verified "new"
           {| height := 100; timestamp := None; txpos := 1; header_hash := "h100" |}).
  - reflexivity.
  - vm_compute. discriminate.
  - vm_compute. reflexivity.
  - vm_compute. reflexivity.
  - vm_compute. split; [reflexivity|discriminate].
  - eexists. reflexivity.
Defined.

(** The pass of the example: ["new"] (height 100) is undone and
    dispatched again, ["old"] (height 90) keeps its root. *)
Example main_cycle_after_reorg :
  match main_cycle Examples.ceil_log2_table Examples.mc2 Examples.common_95 MoreExamples.chain_c
          Examples.spv_verified with
  | inr r => Some (r.2, requested_merkle r.1, dom (merkle_roots r.1))
  | inl _ => None
  end
  = Some ([request_and_verify_single_proof "new" 100 false], {[ "new" ]}, {[ "old" ]}).
Proof. vm_compute. reflexivity. Qed.
